(** * SupplementCheck: date-keyed persistence and day rollover

    A shallow embedding of the state logic of [src/SupplementCheck.tsx]:
    the [App] component's [getTodayString], the [loadData] closure that
    runs on mount and on every [visibilitychange], and the [toggleCheck]
    click handler, together with the parts of the JavaScript platform
    they call ([Date.prototype.toISOString], [String.prototype.split],
    [localStorage], [JSON], property access, object spread).

    Conventions.
    - A JavaScript string is a Rocq [string]; each character stands for
      one code unit.
    - A time value is a [Z], the number of milliseconds since the epoch,
      as [new Date()] holds it.
    - A JavaScript number is a binary64 [float]. *)

From Stdlib Require Import ZArith Lia Ascii String PrimFloat Uint63 SpecFloat FloatOps.
From stdpp Require Import gmap strings list pretty.

Local Open Scope string_scope.
Local Open Scope Z_scope.

#[local] Set Warnings "-register-all".

(** ** Dates: [new Date().toISOString().split('T')[0]] *)

Module JsDate.

(** ECMAScript time arithmetic (Day Number and Time within Day, Year
    Number, Month Number, Date Number). All of it is UTC. *)

Definition msPerDay : Z := 86400000.
Definition msPerHour : Z := 3600000.
Definition msPerMinute : Z := 60000.
Definition msPerSecond : Z := 1000.

Definition Day (t : Z) : Z := t / msPerDay.
Definition TimeWithinDay (t : Z) : Z := t mod msPerDay.

Definition DaysInYear (y : Z) : Z :=
  if negb (y mod 4 =? 0) then 365
  else if negb (y mod 100 =? 0) then 366
  else if negb (y mod 400 =? 0) then 365
  else 366.

Definition DayFromYear (y : Z) : Z :=
  365 * (y - 1970) + (y - 1969) / 4 - (y - 1901) / 100 + (y - 1601) / 400.

(** [YearFromTime t] is the largest [y] with [DayFromYear y <= Day t]:
    one of the three years around the estimate by the mean year length
    (see [YearFromTime_spec]). *)
Definition YearFromTime (t : Z) : Z :=
  let d := Day t in
  let y := 1970 + (d * 400) / 146097 in
  if DayFromYear (y + 1) <=? d then y + 1
  else if DayFromYear y <=? d then y
  else y - 1.

Definition InLeapYear (t : Z) : Z :=
  if DaysInYear (YearFromTime t) =? 366 then 1 else 0.

Definition DayWithinYear (t : Z) : Z := Day t - DayFromYear (YearFromTime t).

(** Month Number, 0 for January to 11 for December. *)
Definition MonthFromTime (t : Z) : Z :=
  let d := DayWithinYear t in
  let l := InLeapYear t in
  if d <? 31 then 0
  else if d <? 59 + l then 1
  else if d <? 90 + l then 2
  else if d <? 120 + l then 3
  else if d <? 151 + l then 4
  else if d <? 181 + l then 5
  else if d <? 212 + l then 6
  else if d <? 243 + l then 7
  else if d <? 273 + l then 8
  else if d <? 304 + l then 9
  else if d <? 334 + l then 10
  else 11.

(** Date Number, the day of the month from 1. *)
Definition DateFromTime (t : Z) : Z :=
  let d := DayWithinYear t in
  let l := InLeapYear t in
  match MonthFromTime t with
  | 0 => d + 1
  | 1 => d - 30
  | 2 => d - 58 - l
  | 3 => d - 89 - l
  | 4 => d - 119 - l
  | 5 => d - 150 - l
  | 6 => d - 180 - l
  | 7 => d - 211 - l
  | 8 => d - 242 - l
  | 9 => d - 272 - l
  | 10 => d - 303 - l
  | _ => d - 333 - l
  end.

Definition HourFromTime (t : Z) : Z := (t / msPerHour) mod 24.
Definition MinFromTime (t : Z) : Z := (t / msPerMinute) mod 60.
Definition SecFromTime (t : Z) : Z := (t / msPerSecond) mod 60.
Definition msFromTime (t : Z) : Z := t mod msPerSecond.

(** Decimal digits, zero padded on the left to [width] places (the low
    [width] digits of [n]). *)
Definition digit (n : Z) : ascii :=
  Ascii.ascii_of_nat (48 + Z.to_nat (n mod 10)).

Fixpoint pad (width : nat) (n : Z) : string :=
  match width with
  | O => ""
  | S w => pad w (n / 10) +:+ String (digit n) ""
  end.

(** The year of the ISO format: four digits from 0 to 9999, otherwise
    the expanded form, a sign and six digits. *)
Definition isoYear (y : Z) : string :=
  if (0 <=? y) && (y <=? 9999) then pad 4 y
  else (if y <? 0 then "-" else "+") +:+ pad 6 (Z.abs y).

(** The date part [YYYY-MM-DD] of a time value. *)
Definition isoDate (t : Z) : string :=
  isoYear (YearFromTime t) +:+ "-" +:+ pad 2 (MonthFromTime t + 1)
    +:+ "-" +:+ pad 2 (DateFromTime t).

Definition isoTime (t : Z) : string :=
  pad 2 (HourFromTime t) +:+ ":" +:+ pad 2 (MinFromTime t) +:+ ":"
    +:+ pad 2 (SecFromTime t) +:+ "." +:+ pad 3 (msFromTime t) +:+ "Z".

(** [Date.prototype.toISOString] on the time value [t]. *)
Definition toISOString (t : Z) : string :=
  isoDate t +:+ "T" +:+ isoTime t.

(** [s.split(sep)] for a separator of one character. *)
Fixpoint split (sep : ascii) (s : string) : list string :=
  match s with
  | EmptyString => [""]
  | String c s' =>
      if Ascii.eqb c sep then "" :: split sep s'
      else match split sep s' with
           | p :: ps => String c p :: ps
           | [] => [String c ""]
           end
  end.

End JsDate.

(** [const getTodayString = () => new Date().toISOString().split('T')[0]],
    with the time value of [new Date()] as the argument [now]. *)
Definition getTodayString (now : Z) : string :=
  hd "" (JsDate.split "T"%char (JsDate.toISOString now)).

(** The calendar date of [now] on a clock [tza] milliseconds ahead of
    UTC (the local time zone adjustment), in the format YYYY-MM-DD: what
    the specification calls today in local time. *)
Definition localDateString (tza : Z) (now : Z) : string :=
  JsDate.isoDate (now + tza).

(** ** JavaScript values *)

(** The values [JSON.parse] can return, and [undefined]. The properties
    of an object are kept in property order. *)
Inductive jsval : Type :=
| JUndefined
| JNull
| JBool (b : bool)
| JNum (x : float)
| JStr (s : string)
| JArr (elems : list jsval)
| JObj (props : list (string * jsval)).

Inductive jserror : Type :=
| SyntaxError     (* JSON.parse on a text that is not JSON *)
| TypeError       (* a property read on null or undefined *)
| DOMException.   (* a localStorage call that fails *)

(** How a piece of code completes: normally with a value, or abruptly
    with a thrown error. *)
Inductive completion (A : Type) : Type :=
| Normal (a : A)
| Throw (e : jserror).
Arguments Normal {A} a.
Arguments Throw {A} e.

Module JsVal.

(** ToBoolean. *)
Definition ToBoolean (v : jsval) : bool :=
  match v with
  | JUndefined | JNull => false
  | JBool b => b
  | JNum x => negb (PrimFloat.eqb x 0%float || negb (PrimFloat.eqb x x))
  | JStr s => negb (String.eqb s "")
  | JArr _ | JObj _ => true
  end.

(** The value of the own property [k] in a property list. *)
Fixpoint obj_get (props : list (string * jsval)) (k : string) : option jsval :=
  match props with
  | [] => None
  | (k', v) :: rest => if String.eqb k' k then Some v else obj_get rest k
  end.

(** [v[k]] and [v.k], for the property names this program reads
    ([date], [checks], [morning], [lunch], [dinner]): none of them is
    an index, [length] or an inherited name, so only an object can
    have one; null and undefined have no properties at all. *)
Definition Get (v : jsval) (k : string) : completion jsval :=
  match v with
  | JUndefined | JNull => Throw TypeError
  | JObj props => Normal (default JUndefined (obj_get props k))
  | JBool _ | JNum _ | JStr _ | JArr _ => Normal JUndefined
  end.

(** [obj[k] = v] on a property list, for a name [k] that is not an
    index: an existing property keeps its place, a new one goes last. *)
Fixpoint obj_set (props : list (string * jsval)) (k : string) (v : jsval)
  : list (string * jsval) :=
  match props with
  | [] => [(k, v)]
  | (k', v') :: rest =>
      if String.eqb k' k then (k, v) :: rest
      else (k', v') :: obj_set rest k v
  end.

(** The characters of a string as one-character strings. *)
Fixpoint chars (s : string) : list jsval :=
  match s with
  | EmptyString => []
  | String c s' => JStr (String c "") :: chars s'
  end.

(** The own enumerable properties [{...v}] copies: those of an object,
    the elements of an array and the characters of a string under their
    indices, nothing for the other values. *)
Definition own_props (v : jsval) : list (string * jsval) :=
  match v with
  | JObj props => props
  | JArr elems => imap (fun i x => (pretty i, x)) elems
  | JStr s => imap (fun i x => (pretty i, x)) (chars s)
  | JUndefined | JNull | JBool _ | JNum _ => []
  end.

End JsVal.

(** ** The data of the component *)

(** [type TimeSlot = 'morning' | 'lunch' | 'dinner'] *)
Inductive TimeSlot : Type := morning | lunch | dinner.

#[global] Instance TimeSlot_eq_dec : EqDecision TimeSlot.
Proof. solve_decision. Defined.

Definition slot_key (slot : TimeSlot) : string :=
  match slot with
  | morning => "morning"
  | lunch => "lunch"
  | dinner => "dinner"
  end.

(** An object literal [{ morning: m, lunch: l, dinner: d }]. *)
Definition mkCheckState (m l d : bool) : jsval :=
  JObj [("morning", JBool m); ("lunch", JBool l); ("dinner", JBool d)].

(** [{ morning: false, lunch: false, dinner: false }] *)
Definition allFalse : jsval := mkCheckState false false false.

(** An object literal [{ date: date, checks: checks }]. *)
Definition mkStoredData (date : string) (checks : jsval) : jsval :=
  JObj [("date", JStr date); ("checks", checks)].

(** What [interface CheckState] declares, as a test on a value: an object
    with the three slots, each a boolean, and no other property. The
    type is erased at run time; nothing in the program performs this
    test. *)
Definition has_bool_slot (props : list (string * jsval)) (slot : TimeSlot) : bool :=
  match JsVal.obj_get props (slot_key slot) with
  | Some (JBool _) => true
  | _ => false
  end.

Definition is_CheckState (v : jsval) : bool :=
  match v with
  | JObj props =>
      (length props =? 3)%nat && has_bool_slot props morning
        && has_bool_slot props lunch && has_bool_slot props dinner
  | _ => false
  end.

(** The boolean a value holds for a slot, if it holds one. *)
Definition slot_bool (c : jsval) (slot : TimeSlot) : option bool :=
  match c with
  | JObj props =>
      match JsVal.obj_get props (slot_key slot) with
      | Some (JBool b) => Some b
      | _ => None
      end
  | _ => None
  end.

(** The component's state, one field per [useState]. The state [checks]
    holds whatever value was last given to [setChecks]. *)
Record AppState : Type := mkAppState {
  checks : jsval;
  lastDate : string;
  isLoaded : bool
}.

(** [localStorage]: the stored items, and whether a call to [getItem] or
    to [setItem] fails (storage denied, quota exceeded). *)
Record Storage : Type := mkStorage {
  items : gmap string string;
  getItem_throws : bool;
  setItem_throws : bool
}.

(** Everything the two handlers read and write: the component state,
    [localStorage], the errors passed to [console.error], and the calls
    [setItem(k, v)] that went through, oldest first. *)
Record World : Type := mkWorld {
  app : AppState;
  localStorage : Storage;
  console : list jserror;
  writes : list (string * string)
}.

Definition KEY : string := "supplement-check-data".

(** ** Effects: world passing with exceptions *)

Definition M (A : Type) : Type := World -> completion A * World.

#[global] Instance M_ret : MRet M := fun A a w => (Normal a, w).

#[global] Instance M_bind : MBind M := fun A B f m w =>
  match m w with
  | (Normal a, w') => f a w'
  | (Throw e, w') => (Throw e, w')
  end.

#[global] Instance M_throw : MThrow jserror M := fun A e w => (Throw e, w).

(** [try { body } catch (e) { handler(e) }]: what [body] did to the world
    before it threw stays done. *)
Definition try_catch {A : Type} (body : M A) (handler : jserror -> M A) : M A :=
  fun w =>
    match body w with
    | (Normal a, w') => (Normal a, w')
    | (Throw e, w') => handler e w'
    end.

Definition of_completion {A : Type} (c : completion A) : M A :=
  fun w => (c, w).

(** The state values of the current render, as the handler's closure
    holds them. *)
Definition render_state : M AppState := fun w => (Normal (app w), w).

Definition setChecks (c : jsval) : M unit := fun w =>
  (Normal tt,
   mkWorld (mkAppState c (lastDate (app w)) (isLoaded (app w)))
           (localStorage w) (console w) (writes w)).

Definition setLastDate (d : string) : M unit := fun w =>
  (Normal tt,
   mkWorld (mkAppState (checks (app w)) d (isLoaded (app w)))
           (localStorage w) (console w) (writes w)).

Definition setIsLoaded (b : bool) : M unit := fun w =>
  (Normal tt,
   mkWorld (mkAppState (checks (app w)) (lastDate (app w)) b)
           (localStorage w) (console w) (writes w)).

(** [localStorage.getItem(k)]: the item, or null ([None]). *)
Definition localStorage_getItem (k : string) : M (option string) := fun w =>
  if getItem_throws (localStorage w) then (Throw DOMException, w)
  else (Normal (items (localStorage w) !! k), w).

(** [localStorage.setItem(k, v)]: overwrites the item. *)
Definition localStorage_setItem (k v : string) : M unit := fun w =>
  if setItem_throws (localStorage w) then (Throw DOMException, w)
  else (Normal tt,
        mkWorld (app w)
                (mkStorage (<[k := v]> (items (localStorage w)))
                           (getItem_throws (localStorage w))
                           (setItem_throws (localStorage w)))
                (console w) (writes w ++ [(k, v)])).

Definition console_error (e : jserror) : M unit := fun w =>
  (Normal tt, mkWorld (app w) (localStorage w) (console w ++ [e]) (writes w)).

(** The truth value of what [getItem] returned: null and the empty
    string are falsy. *)
Definition item_truthy (item : option string) : bool :=
  match item with
  | Some s => negb (String.eqb s "")
  | None => false
  end.

(** ** The component *)

(** The object [{ ...checks, [slot]: !checks[slot] }], with [old] the
    value of [checks[slot]]. *)
Definition toggled (c : jsval) (slot : TimeSlot) (old : jsval) : jsval :=
  JObj (JsVal.obj_set (JsVal.own_props c) (slot_key slot)
                      (JBool (negb (JsVal.ToBoolean old)))).

(** [JSON.parse] and [JSON.stringify] are the platform's: [JSON_parse]
    gives [None] where [JSON.parse] throws a SyntaxError; the program
    gives [JSON_stringify] object literals only, for which it returns a
    string. *)
Class JSON : Type := {
  JSON_parse : string -> option jsval;
  JSON_stringify : jsval -> string;
  (* the empty text is not JSON *)
  JSON_parse_empty : JSON_parse "" = None
}.

Section App.

Context {json : JSON}.

Definition parse (text : string) : M jsval :=
  match JSON_parse text with
  | Some v => mret v
  | None => mthrow SyntaxError
  end.

(** [useState] initial values, for a component mounted at [now]. *)
Definition initialState (now : Z) : AppState :=
  mkAppState allFalse (getTodayString now) false.

(** The two branches of [loadData] after [storedData.date] was read. *)
Definition loadData_stored (today : string) (storedData date : jsval) : M unit :=
  match date with
  | JStr d =>
      if String.eqb d today then
        (* same day: restore *)
        storedChecks ← of_completion (JsVal.Get storedData "checks");
        setChecks storedChecks;;
        setLastDate d
      else
        let newData := mkStoredData today allFalse in
        setChecks allFalse;;
        setLastDate today;;
        localStorage_setItem KEY (JSON_stringify newData)
  | _ =>
      let newData := mkStoredData today allFalse in
      setChecks allFalse;;
      setLastDate today;;
      localStorage_setItem KEY (JSON_stringify newData)
  end.

(** [loadData], called at the time [now]. *)
Definition loadData (now : Z) : M unit :=
  let today := getTodayString now in
  storedJson ← localStorage_getItem KEY;
  (if item_truthy storedJson then
     try_catch
       (storedData ← parse (default "" storedJson);
        date ← of_completion (JsVal.Get storedData "date");
        loadData_stored today storedData date)
       (fun e => console_error e)
   else
     (* first start *)
     setLastDate today);;
  setIsLoaded true.

(** [toggleCheck(slot)], called at the time [now]. [checks] and
    [lastDate] are the values of the render the handler belongs to. *)
Definition toggleCheck (slot : TimeSlot) (now : Z) : M unit :=
  let today := getTodayString now in
  s ← render_state;
  if negb (String.eqb today (lastDate s)) then
    let newData := mkStoredData today allFalse in
    setChecks allFalse;;
    setLastDate today;;
    localStorage_setItem KEY (JSON_stringify newData)
  else
    old ← of_completion (JsVal.Get (checks s) (slot_key slot));
    let newChecks := toggled (checks s) slot old in
    setChecks newChecks;;
    let dataToStore := mkStoredData today newChecks in
    localStorage_setItem KEY (JSON_stringify dataToStore).

End App.

(** ** Runs of the component *)

(** What happens to a mounted component: the page becomes visible again
    ([handleVisibilityChange] calls [loadData]), or a card is clicked. *)
Inductive event : Type :=
| Visible (now : Z)
| Click (slot : TimeSlot) (now : Z).

Definition event_time (ev : event) : Z :=
  match ev with
  | Visible now => now
  | Click _ now => now
  end.

Section Runs.

Context {json : JSON}.

Definition handle (ev : event) : M unit :=
  match ev with
  | Visible now => loadData now
  | Click slot now => toggleCheck slot now
  end.

(** The world after a handler ran; a handler that throws leaves the state
    updates it made before. *)
Definition after (m : M unit) (w : World) : World := snd (m w).

(** Mounting at [now] over the storage [sto]: the first render, then the
    effect, which calls [loadData]. *)
Definition mount (now : Z) (sto : Storage) : World :=
  after (loadData now) (mkWorld (initialState now) sto [] []).

Definition run (evs : list event) (w : World) : World :=
  fold_left (fun w ev => after (handle ev) w) evs w.

(** The worlds a component can be in: the one of its first render, and
    those after a call of [loadData] (by the effect on mount, or when the
    page becomes visible) or of [toggleCheck]. The cards are on the page,
    and can be clicked, once [isLoaded] holds. *)
Inductive reachable : World -> Prop :=
| reachable_first_render now sto :
    reachable (mkWorld (initialState now) sto [] [])
| reachable_visible now w :
    reachable w -> reachable (after (loadData now) w)
| reachable_click slot now w :
    reachable w -> isLoaded (app w) = true ->
    reachable (after (toggleCheck slot now) w).

End Runs.

(** The stored item under [KEY], if any. *)
Definition snapshot (w : World) : option string :=
  items (localStorage w) !! KEY.

(** The storage after a successful [setItem(KEY, v)]. *)
Definition write_item (v : string) (sto : Storage) : Storage :=
  mkStorage (<[KEY := v]> (items sto)) (getItem_throws sto) (setItem_throws sto).

(** A storage none of whose calls fails. *)
Definition storage_works (sto : Storage) : Prop :=
  getItem_throws sto = false /\ setItem_throws sto = false.

(** ** A reference implementation of [JSON]

    [JSON.parse] and [JSON.stringify] on the texts and values without
    numbers other than integers below 2^53 in size, without escapes
    above code unit 255 and without object keys that are array indices. It
    instantiates the general statements at concrete stored texts. *)

Module RefJSON.

Definition is_ws (c : ascii) : bool :=
  let n := N_of_ascii c in
  ((n =? 32) || (n =? 9) || (n =? 10) || (n =? 13))%N.

Fixpoint skip_ws (s : string) : string :=
  match s with
  | EmptyString => ""
  | String c s' => if is_ws c then skip_ws s' else s
  end.

(** [s] without its prefix [lit]. *)
Fixpoint expect (lit s : string) : option string :=
  match lit with
  | EmptyString => Some s
  | String c lit' =>
      match s with
      | String d s' => if Ascii.eqb c d then expect lit' s' else None
      | EmptyString => None
      end
  end.

Definition hex_val (c : ascii) : option N :=
  let n := N_of_ascii c in
  if ((48 <=? n) && (n <=? 57))%N then Some (n - 48)%N
  else if ((65 <=? n) && (n <=? 70))%N then Some (n - 55)%N
  else if ((97 <=? n) && (n <=? 102))%N then Some (n - 87)%N
  else None.

Definition escape_char (e : ascii) : option ascii :=
  let n := N_of_ascii e in
  if (n =? 34)%N then Some e
  else if (n =? 92)%N then Some e
  else if (n =? 47)%N then Some e
  else if (n =? 98)%N then Some (ascii_of_N 8)
  else if (n =? 102)%N then Some (ascii_of_N 12)
  else if (n =? 110)%N then Some (ascii_of_N 10)
  else if (n =? 114)%N then Some (ascii_of_N 13)
  else if (n =? 116)%N then Some (ascii_of_N 9)
  else None.

(** The characters of a string literal after its opening quote, and the
    text after its closing quote. *)
Fixpoint parse_string (s : string) : option (string * string) :=
  match s with
  | EmptyString => None
  | String c s' =>
      let n := N_of_ascii c in
      if (n =? 34)%N then Some ("", s')
      else if (n =? 92)%N then
        match s' with
        | String e s'' =>
            if (N_of_ascii e =? 117)%N then
              match s'' with
              | String h1 (String h2 (String h3 (String h4 rest))) =>
                  match hex_val h1, hex_val h2, hex_val h3, hex_val h4 with
                  | Some a, Some b, Some c', Some d =>
                      let code := (((a * 16 + b) * 16 + c') * 16 + d)%N in
                      if (code <? 256)%N then
                        '(str, r) ← parse_string rest;
                        Some (String (ascii_of_N code) str, r)
                      else None
                  | _, _, _, _ => None
                  end
              | _ => None
              end
            else
              match escape_char e with
              | Some c' =>
                  '(str, r) ← parse_string s'';
                  Some (String c' str, r)
              | None => None
              end
        | EmptyString => None
        end
      else if (n <? 32)%N then None
      else
        '(str, r) ← parse_string s';
        Some (String c str, r)
  end.

Definition is_digit (c : ascii) : bool :=
  let n := N_of_ascii c in ((48 <=? n) && (n <=? 57))%N.

Definition digit_val (c : ascii) : Z := Z.of_N (N_of_ascii c) - 48.

Fixpoint take_digits (s : string) (acc : Z) : Z * string :=
  match s with
  | String c s' =>
      if is_digit c then take_digits s' (acc * 10 + digit_val c) else (acc, s)
  | EmptyString => (acc, s)
  end.

Definition float_of_int (neg : bool) (n : Z) : float :=
  let x := PrimFloat.of_uint63 (Uint63.of_Z n) in
  if neg then PrimFloat.opp x else x.

Definition starts_fraction (s : string) : bool :=
  match s with
  | String c _ =>
      let n := N_of_ascii c in ((n =? 46) || (n =? 101) || (n =? 69))%N
  | EmptyString => false
  end.

Definition finish_number (neg : bool) (n : Z) (rest : string)
  : option (jsval * string) :=
  if starts_fraction rest then None
  else if n <=? 2 ^ 53 then Some (JNum (float_of_int neg n), rest)
  else None.

Definition parse_number (s : string) : option (jsval * string) :=
  let '(neg, s1) :=
    match s with
    | String c r => if (N_of_ascii c =? 45)%N then (true, r) else (false, s)
    | EmptyString => (false, s)
    end in
  match s1 with
  | String c r =>
      if (N_of_ascii c =? 48)%N then finish_number neg 0 r
      else if is_digit c then
        let '(n, r') := take_digits r (digit_val c) in finish_number neg n r'
      else None
  | EmptyString => None
  end.

(** An object from its members in the order of the text: a repeated key
    keeps its first place and takes the last value. *)
Definition object_of (members : list (string * jsval)) : jsval :=
  JObj (fold_left (fun o kv => JsVal.obj_set o (fst kv) (snd kv)) members []).

Fixpoint parse_value (fuel : nat) (s : string) : option (jsval * string) :=
  match fuel with
  | O => None
  | S fuel' =>
      match skip_ws s with
      | EmptyString => None
      | String c rest =>
          let n := N_of_ascii c in
          if (n =? 110)%N then r ← expect "ull" rest; Some (JNull, r)
          else if (n =? 116)%N then r ← expect "rue" rest; Some (JBool true, r)
          else if (n =? 102)%N then r ← expect "alse" rest; Some (JBool false, r)
          else if (n =? 34)%N then
            '(str, r) ← parse_string rest; Some (JStr str, r)
          else if (n =? 91)%N then
            match skip_ws rest with
            | String c' r =>
                if (N_of_ascii c' =? 93)%N then Some (JArr [], r)
                else '(vs, r') ← parse_elements fuel' rest; Some (JArr vs, r')
            | EmptyString => None
            end
          else if (n =? 123)%N then
            match skip_ws rest with
            | String c' r =>
                if (N_of_ascii c' =? 125)%N then Some (JObj [], r)
                else '(ms, r') ← parse_members fuel' rest; Some (object_of ms, r')
            | EmptyString => None
            end
          else parse_number (String c rest)
      end
  end
with parse_elements (fuel : nat) (s : string) : option (list jsval * string) :=
  match fuel with
  | O => None
  | S fuel' =>
      '(v, r) ← parse_value fuel' s;
      match skip_ws r with
      | String c r' =>
          if (N_of_ascii c =? 44)%N then
            '(vs, r'') ← parse_elements fuel' r'; Some (v :: vs, r'')
          else if (N_of_ascii c =? 93)%N then Some ([v], r')
          else None
      | EmptyString => None
      end
  end
with parse_members (fuel : nat) (s : string)
  : option (list (string * jsval) * string) :=
  match fuel with
  | O => None
  | S fuel' =>
      match skip_ws s with
      | String q r0 =>
          if (N_of_ascii q =? 34)%N then
            '(k, r1) ← parse_string r0;
            match skip_ws r1 with
            | String colon r2 =>
                if (N_of_ascii colon =? 58)%N then
                  '(v, r3) ← parse_value fuel' r2;
                  match skip_ws r3 with
                  | String c r4 =>
                      if (N_of_ascii c =? 44)%N then
                        '(ms, r5) ← parse_members fuel' r4; Some ((k, v) :: ms, r5)
                      else if (N_of_ascii c =? 125)%N then Some ([(k, v)], r4)
                      else None
                  | EmptyString => None
                  end
                else None
            | EmptyString => None
            end
          else None
      | EmptyString => None
      end
  end.

(** [JSON.parse(text)]; every call of the parser above takes a character
    of the text or is followed by one that does, so twice its length is
    enough fuel. *)
Definition parse (text : string) : option jsval :=
  match parse_value (2 * String.length text + 2) text with
  | Some (v, rest) => if String.eqb (skip_ws rest) "" then Some v else None
  | None => None
  end.

Definition dquote : ascii := ascii_of_N 34.
Definition backslash : ascii := ascii_of_N 92.

Definition hex_digit (n : N) : ascii :=
  if (n <? 10)%N then ascii_of_N (48 + n) else ascii_of_N (87 + n).

Definition quote_char (c : ascii) : string :=
  let n := N_of_ascii c in
  if (n =? 34)%N then String backslash (String dquote "")
  else if (n =? 92)%N then String backslash (String backslash "")
  else if (n =? 8)%N then String backslash "b"
  else if (n =? 12)%N then String backslash "f"
  else if (n =? 10)%N then String backslash "n"
  else if (n =? 13)%N then String backslash "r"
  else if (n =? 9)%N then String backslash "t"
  else if (n <? 32)%N then
    String backslash ("u00" +:+ String (hex_digit (n / 16)) (String (hex_digit (n mod 16)) ""))
  else String c "".

Fixpoint quote_chars (s : string) : string :=
  match s with
  | EmptyString => ""
  | String c s' => quote_char c +:+ quote_chars s'
  end.

(** QuoteJSONString. *)
Definition quote (s : string) : string :=
  String dquote (quote_chars s +:+ String dquote "").

(** A finite number that is an integer below 2^53 in size prints as its
    digits; NaN and the infinities print as null. *)
Definition stringify_number (x : float) : string :=
  match Prim2SF x with
  | S754_zero _ => "0"
  | S754_finite neg m e =>
      let n := if 0 <=? e then Z.pos m * 2 ^ e else Z.pos m / 2 ^ (- e) in
      (if neg then "-" else "") +:+ pretty n
  | S754_infinity _ | S754_nan => "null"
  end.

Definition join (sep : string) (parts : list string) : string :=
  match parts with
  | [] => ""
  | p :: ps => fold_left (fun acc q => acc +:+ sep +:+ q) ps p
  end.

Fixpoint stringify (v : jsval) : string :=
  match v with
  | JUndefined => "null"
  | JNull => "null"
  | JBool true => "true"
  | JBool false => "false"
  | JNum x => stringify_number x
  | JStr s => quote s
  | JArr elems => "[" +:+ join "," (map stringify elems) +:+ "]"
  | JObj props =>
      "{" +:+ join ","
        (omap (fun kv =>
                 match snd kv with
                 | JUndefined => None
                 | _ => Some (quote (fst kv) +:+ ":" +:+ stringify (snd kv))
                 end) props) +:+ "}"
  end.

#[global] Instance ref_json : JSON :=
  {| JSON_parse := parse; JSON_stringify := stringify;
     JSON_parse_empty := eq_refl |}.

(** A JSON text written with single quotes for the double ones. *)
Fixpoint text (s : string) : string :=
  match s with
  | EmptyString => ""
  | String c s' =>
      String (if (N_of_ascii c =? 39)%N then dquote else c) (text s')
  end.

End RefJSON.

(** * Properties *)

(** ** The date string *)

Section DateFacts.

Import JsDate.

(** [YearFromTime] is the year the ECMAScript definition asks for: the
    day of [t] lies in it. *)
Lemma YearFromTime_spec (t : Z) :
  DayFromYear (YearFromTime t) <= Day t < DayFromYear (YearFromTime t + 1).
Proof.
  unfold YearFromTime, DayFromYear.
  set (d := Day t).
  repeat match goal with
         | |- context [?a <=? ?b] => destruct (Z.leb_spec a b)
         end; Z.div_mod_to_equations; lia.
Qed.

Lemma DayFromYear_lt (y y' : Z) : y < y' -> DayFromYear y < DayFromYear y'.
Proof.
  unfold DayFromYear. intros Hlt.
  assert (H4 : (y - 1969) / 4 <= (y' - 1969) / 4) by (apply Z.div_le_mono; lia).
  assert (H400 : (y - 1601) / 400 <= (y' - 1601) / 400) by (apply Z.div_le_mono; lia).
  assert (H100 : (y' - 1901) / 100 <= (y - 1901) / 100 + (y' - y))
    by (Z.div_mod_to_equations; lia).
  lia.
Qed.

Lemma YearFromTime_largest (t y : Z) :
  DayFromYear y <= Day t -> y <= YearFromTime t.
Proof.
  intros Hy. destruct (Z.le_gt_cases y (YearFromTime t)) as [Hle | Hgt]; [exact Hle |].
  pose proof (YearFromTime_spec t) as [_ Hup].
  assert (DayFromYear (YearFromTime t + 1) <= DayFromYear y).
  { destruct (Z.eq_dec (YearFromTime t + 1) y) as [-> | Hne]; [lia |].
    apply Z.lt_le_incl, DayFromYear_lt. lia. }
  lia.
Qed.

(** The date part is a function of the day number alone. *)
Lemma isoDate_same_day (t t' : Z) : Day t = Day t' -> isoDate t = isoDate t'.
Proof.
  intros Hd.
  assert (Hy : YearFromTime t = YearFromTime t') by (unfold YearFromTime; now rewrite Hd).
  assert (Hw : DayWithinYear t = DayWithinYear t') by (unfold DayWithinYear; now rewrite Hd, Hy).
  assert (Hl : InLeapYear t = InLeapYear t') by (unfold InLeapYear; now rewrite Hy).
  assert (Hm : MonthFromTime t = MonthFromTime t') by (unfold MonthFromTime; now rewrite Hw, Hl).
  unfold isoDate, DateFromTime. now rewrite Hy, Hm, Hw, Hl.
Qed.

(** Whether the character [c] occurs in [s]. *)
Fixpoint occurs (c : ascii) (s : string) : bool :=
  match s with
  | EmptyString => false
  | String c' s' => Ascii.eqb c' c || occurs c s'
  end.

Lemma occurs_app (c : ascii) (a b : string) :
  occurs c (a +:+ b) = occurs c a || occurs c b.
Proof.
  induction a as [| c' a IH]; simpl; [reflexivity |].
  rewrite IH. now rewrite orb_assoc.
Qed.

Lemma split_first (sep : ascii) (a b : string) :
  occurs sep a = false -> hd "" (split sep (a +:+ String sep b)) = a.
Proof.
  induction a as [| c a IH]; simpl.
  - intros _. now rewrite Ascii.eqb_refl.
  - intros Hocc. apply orb_false_iff in Hocc as [Hc Ha].
    rewrite Hc. specialize (IH Ha).
    destruct (split sep (a +:+ String sep b)) as [| p ps]; simpl in *; congruence.
Qed.

Lemma digit_not_T (n : Z) : Ascii.eqb (digit n) "T" = false.
Proof.
  unfold digit.
  assert (Hr : 0 <= n mod 10 < 10) by (apply Z.mod_pos_bound; lia).
  assert (Hc : n mod 10 = 0 \/ n mod 10 = 1 \/ n mod 10 = 2 \/ n mod 10 = 3
               \/ n mod 10 = 4 \/ n mod 10 = 5 \/ n mod 10 = 6 \/ n mod 10 = 7
               \/ n mod 10 = 8 \/ n mod 10 = 9) by lia.
  repeat destruct Hc as [-> | Hc]; try rewrite Hc; reflexivity.
Qed.

Lemma pad_no_T (width : nat) (n : Z) : occurs "T" (pad width n) = false.
Proof.
  revert n. induction width as [| w IH]; intros n; [reflexivity |].
  cbn [pad]. rewrite occurs_app, IH. cbn [occurs orb].
  now rewrite digit_not_T.
Qed.

Lemma isoDate_no_T (t : Z) : occurs "T" (isoDate t) = false.
Proof.
  unfold isoDate, isoYear. rewrite !occurs_app, !pad_no_T.
  destruct ((0 <=? YearFromTime t) && (YearFromTime t <=? 9999)).
  - now rewrite pad_no_T.
  - rewrite occurs_app, pad_no_T. now destruct (YearFromTime t <? 0).
Qed.

End DateFacts.

(** [getTodayString] is the date part of the UTC time: what [split]
    leaves of the ISO string before its [T]. *)
Lemma getTodayString_isoDate (now : Z) : getTodayString now = JsDate.isoDate now.
Proof.
  unfold getTodayString, JsDate.toISOString.
  apply split_first, isoDate_no_T.
Qed.

(** It is the date on the clock of UTC, *)
Lemma getTodayString_utc (now : Z) : getTodayString now = localDateString 0 now.
Proof. unfold localDateString. now rewrite Z.add_0_r, getTodayString_isoDate. Qed.

(** and the date on a local clock when that clock shows the same day. *)
Lemma getTodayString_local_same_day (tza now : Z) :
  JsDate.Day (now + tza) = JsDate.Day now ->
  getTodayString now = localDateString tza now.
Proof.
  intros Hd. rewrite getTodayString_isoDate. unfold localDateString.
  symmetry. now apply isoDate_same_day.
Qed.

(** ** Objects *)

Section ObjectFacts.

Import JsVal.

Lemma obj_get_set_eq props k v : obj_get (obj_set props k v) k = Some v.
Proof.
  induction props as [| [k' v'] rest IH]; simpl.
  - now rewrite String.eqb_refl.
  - destruct (String.eqb k' k) eqn:E; simpl.
    + now rewrite String.eqb_refl.
    + now rewrite E.
Qed.

Lemma obj_get_set_ne props k k' v :
  k <> k' -> obj_get (obj_set props k v) k' = obj_get props k'.
Proof.
  intros Hne. induction props as [| [k0 v0] rest IH]; simpl.
  - destruct (String.eqb_spec k k'); [contradiction | reflexivity].
  - destruct (String.eqb_spec k0 k) as [-> | Hk]; simpl.
    + destruct (String.eqb_spec k k'); [contradiction | reflexivity].
    + now rewrite IH.
Qed.

Lemma obj_set_keys props k v v0 :
  obj_get props k = Some v0 -> map fst (obj_set props k v) = map fst props.
Proof.
  induction props as [| [k' v'] rest IH]; simpl; [discriminate |].
  destruct (String.eqb_spec k' k) as [-> | Hk]; simpl; [reflexivity |].
  intros Hg. now rewrite IH.
Qed.

Lemma obj_set_length props k v v0 :
  obj_get props k = Some v0 -> length (obj_set props k v) = length props.
Proof.
  intros Hg. rewrite <- (length_map fst), (obj_set_keys _ _ _ _ Hg).
  apply length_map.
Qed.

Lemma slot_key_inj : Inj (=) (=) slot_key.
Proof. intros [] []; simpl; congruence. Qed.

Lemma has_bool_slot_set props slot slot' b :
  has_bool_slot (obj_set props (slot_key slot) (JBool b)) slot'
  = if decide (slot = slot') then true else has_bool_slot props slot'.
Proof.
  unfold has_bool_slot. destruct (decide (slot = slot')) as [-> | Hne].
  - now rewrite obj_get_set_eq.
  - rewrite obj_get_set_ne; [reflexivity |].
    intros Hk. now apply slot_key_inj in Hk.
Qed.

End ObjectFacts.

(** ** The handlers, case by case *)

Arguments getTodayString : simpl never.

Ltac unfold_handlers :=
  unfold loadData, loadData_stored, toggleCheck, parse, try_catch,
    of_completion, render_state, setChecks, setLastDate, setIsLoaded,
    localStorage_getItem, localStorage_setItem, console_error, write_item,
    snapshot, mbind, M_bind, mret, M_ret, mthrow, M_throw in *.

Ltac simpl_world :=
  cbn [fst snd app localStorage console writes checks lastDate isLoaded
       items getItem_throws setItem_throws] in *.

Section HandlerFacts.

Context {json : JSON}.

Lemma item_truthy_parsed (s : string) (v : jsval) :
  JSON_parse s = Some v -> item_truthy (Some s) = true.
Proof.
  intros Hp. unfold item_truthy.
  destruct (String.eqb_spec s "") as [-> | _]; [| reflexivity].
  rewrite JSON_parse_empty in Hp. discriminate.
Qed.

(** [getItem] is outside the [try]: its failure leaves [loadData]. *)
Lemma loadData_read_fails now w :
  getItem_throws (localStorage w) = true ->
  loadData now w = (Throw DOMException, w).
Proof. intros Hg. unfold_handlers. now rewrite Hg. Qed.

(** No item, or an empty one: only the date is set. *)
Lemma loadData_no_snapshot now w :
  getItem_throws (localStorage w) = false ->
  item_truthy (snapshot w) = false ->
  loadData now w =
  (Normal tt,
   mkWorld (mkAppState (checks (app w)) (getTodayString now) true)
           (localStorage w) (console w) (writes w)).
Proof.
  intros Hg Ht. unfold_handlers. rewrite Hg, Ht. reflexivity.
Qed.

(** A text [JSON.parse] rejects: the [catch] logs, the state stays. *)
Lemma loadData_not_json now w s :
  getItem_throws (localStorage w) = false ->
  snapshot w = Some s -> item_truthy (Some s) = true ->
  JSON_parse s = None ->
  loadData now w =
  (Normal tt,
   mkWorld (mkAppState (checks (app w)) (lastDate (app w)) true)
           (localStorage w) (console w ++ [SyntaxError]) (writes w)).
Proof.
  intros Hg Hs Ht Hp. unfold_handlers. rewrite Hg, Hs, Ht. cbn.
  rewrite Hp. reflexivity.
Qed.

(** A value without properties (null): reading [date] throws inside the
    [try]. *)
Lemma loadData_no_properties now w s v e :
  getItem_throws (localStorage w) = false ->
  snapshot w = Some s -> JSON_parse s = Some v ->
  JsVal.Get v "date" = Throw e ->
  loadData now w =
  (Normal tt,
   mkWorld (mkAppState (checks (app w)) (lastDate (app w)) true)
           (localStorage w) (console w ++ [e]) (writes w)).
Proof.
  intros Hg Hs Hp Hd. pose proof (item_truthy_parsed _ _ Hp) as Ht.
  unfold_handlers. rewrite Hg, Hs, Ht. cbn. rewrite Hp, Hd. reflexivity.
Qed.

(** A value whose [date] is today's string: its [checks] are taken as
    they are. *)
Lemma loadData_same_day now w s v c :
  getItem_throws (localStorage w) = false ->
  snapshot w = Some s -> JSON_parse s = Some v ->
  JsVal.Get v "date" = Normal (JStr (getTodayString now)) ->
  JsVal.Get v "checks" = Normal c ->
  loadData now w =
  (Normal tt,
   mkWorld (mkAppState c (getTodayString now) true)
           (localStorage w) (console w) (writes w)).
Proof.
  intros Hg Hs Hp Hd Hc. pose proof (item_truthy_parsed _ _ Hp) as Ht.
  unfold_handlers. rewrite Hg, Hs, Ht. cbn. rewrite Hp, Hd, String.eqb_refl, Hc.
  reflexivity.
Qed.

(** A value whose [date] is anything else: reset, and write; a failing
    write is caught after the state was reset. *)
Lemma loadData_stale now w s v d :
  getItem_throws (localStorage w) = false ->
  snapshot w = Some s -> JSON_parse s = Some v ->
  JsVal.Get v "date" = Normal d ->
  d <> JStr (getTodayString now) ->
  loadData now w =
  if setItem_throws (localStorage w) then
    (Normal tt,
     mkWorld (mkAppState allFalse (getTodayString now) true)
             (localStorage w) (console w ++ [DOMException]) (writes w))
  else
    (Normal tt,
     mkWorld (mkAppState allFalse (getTodayString now) true)
             (write_item (JSON_stringify (mkStoredData (getTodayString now) allFalse))
                         (localStorage w))
             (console w)
             (writes w ++ [(KEY, JSON_stringify (mkStoredData (getTodayString now) allFalse))])).
Proof.
  intros Hg Hs Hp Hd Hne. pose proof (item_truthy_parsed _ _ Hp) as Ht.
  unfold_handlers. rewrite Hg, Hs, Ht. cbn. rewrite Hp, Hd.
  destruct d as [| | b | x | d' | elems | props]; cbn;
    try (destruct (setItem_throws (localStorage w)); rewrite ?Hg; reflexivity).
  destruct (String.eqb_spec d' (getTodayString now)) as [-> | _];
    [contradiction |].
  cbn. destruct (setItem_throws (localStorage w)); rewrite ?Hg; reflexivity.
Qed.

(** [toggleCheck] on another day than [lastDate]: reset, and write; there
    is no [try] around the write. *)
Lemma toggleCheck_stale slot now w :
  getTodayString now <> lastDate (app w) ->
  toggleCheck slot now w =
  if setItem_throws (localStorage w) then
    (Throw DOMException,
     mkWorld (mkAppState allFalse (getTodayString now) (isLoaded (app w)))
             (localStorage w) (console w) (writes w))
  else
    (Normal tt,
     mkWorld (mkAppState allFalse (getTodayString now) (isLoaded (app w)))
             (write_item (JSON_stringify (mkStoredData (getTodayString now) allFalse))
                         (localStorage w))
             (console w)
             (writes w ++ [(KEY, JSON_stringify (mkStoredData (getTodayString now) allFalse))])).
Proof.
  intros Hne. unfold_handlers.
  destruct (String.eqb_spec (getTodayString now) (lastDate (app w)));
    [contradiction |].
  cbn. destruct (setItem_throws (localStorage w)); reflexivity.
Qed.

(** [toggleCheck] on the day of [lastDate], with [checks[slot]] readable. *)
Lemma toggleCheck_same_day slot now w old :
  getTodayString now = lastDate (app w) ->
  JsVal.Get (checks (app w)) (slot_key slot) = Normal old ->
  toggleCheck slot now w =
  let newChecks := toggled (checks (app w)) slot old in
  if setItem_throws (localStorage w) then
    (Throw DOMException,
     mkWorld (mkAppState newChecks (lastDate (app w)) (isLoaded (app w)))
             (localStorage w) (console w) (writes w))
  else
    (Normal tt,
     mkWorld (mkAppState newChecks (lastDate (app w)) (isLoaded (app w)))
             (write_item (JSON_stringify (mkStoredData (getTodayString now) newChecks))
                         (localStorage w))
             (console w)
             (writes w ++ [(KEY, JSON_stringify (mkStoredData (getTodayString now) newChecks))])).
Proof.
  intros Heq Hold. unfold_handlers. rewrite Heq, String.eqb_refl. cbn.
  rewrite Hold. cbn. destruct (setItem_throws (localStorage w)); reflexivity.
Qed.

(** [toggleCheck] on the day of [lastDate], with [checks] null or
    undefined: the read throws before anything is done. *)
Lemma toggleCheck_no_properties slot now w e :
  getTodayString now = lastDate (app w) ->
  JsVal.Get (checks (app w)) (slot_key slot) = Throw e ->
  toggleCheck slot now w = (Throw e, w).
Proof.
  intros Heq Hold. unfold_handlers. rewrite Heq, String.eqb_refl. cbn.
  rewrite Hold. reflexivity.
Qed.

End HandlerFacts.

(** ** What a call leaves alone *)

Section Frames.

Context {json : JSON}.

Lemma snapshot_write_item v a sto c ws :
  snapshot (mkWorld a (write_item v sto) c ws) = Some v.
Proof. unfold snapshot, write_item. cbn. apply lookup_insert_eq. Qed.

Lemma Get_Normal_any (v d : jsval) (k k' : string) :
  JsVal.Get v k = Normal d -> exists c, JsVal.Get v k' = Normal c.
Proof. destruct v; cbn; intros H; try discriminate; eauto. Qed.

(** The ways through [loadData] when [getItem] works. *)
Inductive load_case (now : Z) (w : World) : Prop :=
| load_none :
    item_truthy (snapshot w) = false -> load_case now w
| load_not_json s :
    snapshot w = Some s -> item_truthy (Some s) = true ->
    JSON_parse s = None -> load_case now w
| load_no_properties s v e :
    snapshot w = Some s -> JSON_parse s = Some v ->
    JsVal.Get v "date" = Throw e -> load_case now w
| load_same_day s v c :
    snapshot w = Some s -> JSON_parse s = Some v ->
    JsVal.Get v "date" = Normal (JStr (getTodayString now)) ->
    JsVal.Get v "checks" = Normal c -> load_case now w
| load_stale s v d :
    snapshot w = Some s -> JSON_parse s = Some v ->
    JsVal.Get v "date" = Normal d -> d <> JStr (getTodayString now) ->
    load_case now w.

Lemma load_cases now w : load_case now w.
Proof.
  destruct (item_truthy (snapshot w)) eqn:Ht; [| now apply load_none].
  destruct (snapshot w) as [s |] eqn:Hs; [| discriminate].
  destruct (JSON_parse s) as [v |] eqn:Hp; [| eapply load_not_json; eassumption].
  destruct (JsVal.Get v "date") as [d | e] eqn:Hd;
    [| eapply load_no_properties; eassumption].
  destruct (Get_Normal_any _ _ _ "checks" Hd) as [c Hc].
  destruct d as [| | b | x | d' | elems | props];
    try (eapply load_stale; [eassumption .. | discriminate]).
  destruct (String.eqb_spec d' (getTodayString now)) as [-> | Hne].
  - eapply load_same_day; eassumption.
  - eapply load_stale; [eassumption .. | congruence].
Qed.

(** The ways through [toggleCheck]. *)
Inductive toggle_case (slot : TimeSlot) (now : Z) (w : World) : Prop :=
| toggle_stale :
    getTodayString now <> lastDate (app w) -> toggle_case slot now w
| toggle_same_day old :
    getTodayString now = lastDate (app w) ->
    JsVal.Get (checks (app w)) (slot_key slot) = Normal old ->
    toggle_case slot now w
| toggle_no_properties e :
    getTodayString now = lastDate (app w) ->
    JsVal.Get (checks (app w)) (slot_key slot) = Throw e ->
    toggle_case slot now w.

Lemma toggle_cases slot now w : toggle_case slot now w.
Proof.
  destruct (String.eqb_spec (getTodayString now) (lastDate (app w))) as [He | Hne];
    [| now apply toggle_stale].
  destruct (JsVal.Get (checks (app w)) (slot_key slot)) as [old | e] eqn:Hg.
  - eapply toggle_same_day; eassumption.
  - eapply toggle_no_properties; eassumption.
Qed.

(** No call changes how the storage behaves. *)
Lemma loadData_flags now w :
  getItem_throws (localStorage (after (loadData now) w)) = getItem_throws (localStorage w)
  /\ setItem_throws (localStorage (after (loadData now) w)) = setItem_throws (localStorage w).
Proof.
  unfold after.
  destruct (getItem_throws (localStorage w)) eqn:Hg.
  { rewrite loadData_read_fails by assumption. cbn. now rewrite Hg. }
  destruct (load_cases now w) as [Ht | s Hs Ht Hp | s v e Hs Hp Hd | s v c Hs Hp Hd Hc
                                 | s v d Hs Hp Hd Hne].
  - rewrite loadData_no_snapshot by assumption. cbn. now rewrite Hg.
  - rewrite (loadData_not_json now w s) by assumption. cbn. now rewrite Hg.
  - rewrite (loadData_no_properties now w s v e) by assumption. cbn. now rewrite Hg.
  - rewrite (loadData_same_day now w s v c) by assumption. cbn. now rewrite Hg.
  - rewrite (loadData_stale now w s v d) by assumption.
    destruct (setItem_throws (localStorage w)) eqn:Hst; cbn; now rewrite ?Hg, ?Hst.
Qed.

Lemma toggleCheck_flags slot now w :
  getItem_throws (localStorage (after (toggleCheck slot now) w)) = getItem_throws (localStorage w)
  /\ setItem_throws (localStorage (after (toggleCheck slot now) w)) = setItem_throws (localStorage w).
Proof.
  unfold after.
  destruct (toggle_cases slot now w) as [Hne | old He Hg | e He Hg].
  - rewrite toggleCheck_stale by assumption.
    destruct (setItem_throws (localStorage w)) eqn:Hst; cbn; now rewrite ?Hst.
  - rewrite (toggleCheck_same_day slot now w old) by assumption. cbn zeta.
    destruct (setItem_throws (localStorage w)) eqn:Hst; cbn; now rewrite ?Hst.
  - rewrite (toggleCheck_no_properties slot now w e) by assumption. now cbn.
Qed.

(** While every write goes through, an empty store means nothing was
    ever checked: the checks are those of the first render. *)
Lemma reachable_empty_store w :
  reachable w -> setItem_throws (localStorage w) = false ->
  snapshot w = None -> checks (app w) = allFalse.
Proof.
  induction 1 as [now sto | now w Hr IH | slot now w Hr IH Hl]; intros Hst Hsnap.
  - reflexivity.
  - destruct (loadData_flags now w) as [_ Hf]. rewrite Hst in Hf. symmetry in Hf.
    unfold after in *.
    destruct (getItem_throws (localStorage w)) eqn:Hg.
    { rewrite loadData_read_fails in * by assumption. now apply IH. }
    destruct (load_cases now w) as [Ht | s Hs Ht Hp | s v e Hs Hp Hd | s v c Hs Hp Hd Hc
                                   | s v d Hs Hp Hd Hne].
    + rewrite loadData_no_snapshot in * by assumption. cbn in *.
      apply IH; [assumption |].
      unfold snapshot in *. assumption.
    + rewrite (loadData_not_json now w s) in Hsnap by assumption.
      unfold snapshot in *. cbn in Hsnap. congruence.
    + rewrite (loadData_no_properties now w s v e) in Hsnap by assumption.
      unfold snapshot in *. cbn in Hsnap. congruence.
    + rewrite (loadData_same_day now w s v c) in Hsnap by assumption.
      unfold snapshot in *. cbn in Hsnap. congruence.
    + rewrite (loadData_stale now w s v d) in * by assumption.
      rewrite Hf in *. now cbn.
  - destruct (toggleCheck_flags slot now w) as [_ Hf]. rewrite Hst in Hf. symmetry in Hf.
    unfold after in *.
    destruct (toggle_cases slot now w) as [Hne | old He Hg | e He Hg].
    + rewrite toggleCheck_stale in * by assumption. rewrite Hf in *. now cbn.
    + rewrite (toggleCheck_same_day slot now w old) in Hsnap by assumption.
      cbn zeta in Hsnap. rewrite Hf in Hsnap.
      cbn [snd] in Hsnap. rewrite snapshot_write_item in Hsnap. discriminate.
    + rewrite (toggleCheck_no_properties slot now w e) in * by assumption.
      now apply IH.
Qed.

End Frames.

(** ** Check states *)

Section CheckStateFacts.

Import JsVal.

Lemma is_CheckState_allFalse : is_CheckState allFalse = true.
Proof. reflexivity. Qed.

Lemma is_CheckState_slot c slot :
  is_CheckState c = true ->
  exists props b, c = JObj props /\ obj_get props (slot_key slot) = Some (JBool b).
Proof.
  destruct c as [| | | | | | props]; try discriminate. cbn.
  intros H. apply andb_prop in H as [H Hd]. apply andb_prop in H as [H Hl].
  apply andb_prop in H as [_ Hm].
  assert (Hs : has_bool_slot props slot = true) by now destruct slot.
  unfold has_bool_slot in Hs.
  destruct (obj_get props (slot_key slot)) as [[| | b | | | |] |] eqn:Hg;
    try discriminate.
  exists props, b. split; [reflexivity | exact Hg].
Qed.

Lemma is_CheckState_toggled c slot old :
  is_CheckState c = true ->
  Get c (slot_key slot) = Normal old ->
  is_CheckState (toggled c slot old) = true.
Proof.
  intros Hc Hold. destruct (is_CheckState_slot c slot Hc) as (props & b & -> & Hg).
  unfold toggled. cbn [own_props is_CheckState] in *.
  rewrite (obj_set_length _ _ _ _ Hg), !has_bool_slot_set.
  apply andb_prop in Hc as [Hc Hd]. apply andb_prop in Hc as [Hc Hl].
  apply andb_prop in Hc as [Hn Hm]. rewrite Hn, Hm, Hl, Hd.
  now repeat case_decide.
Qed.

End CheckStateFacts.

(** Once [getItem] has returned, [loadData] returns. *)
Lemma loadData_returns `{JSON} now w :
  getItem_throws (localStorage w) = false ->
  fst (loadData now w) = Normal tt.
Proof.
  intros Hg.
  destruct (load_cases now w) as [Ht | s Hs Ht Hp | s v e Hs Hp Hd | s v c Hs Hp Hd Hc
                                 | s v d Hs Hp Hd Hne].
  - now rewrite loadData_no_snapshot.
  - now rewrite (loadData_not_json now w s).
  - now rewrite (loadData_no_properties now w s v e).
  - now rewrite (loadData_same_day now w s v c).
  - rewrite (loadData_stale now w s v d) by assumption.
    now destruct (setItem_throws (localStorage w)).
Qed.

(** ** The claims of the specification *)

Section Claims.

Context {json : JSON}.

(** C1 (P2, rollover resets), as amended. With a working storage that
    holds a record of the date [D1], a call of [loadData] at a time
    whose date [D2] is not [D1] sets the checks to all false and the
    current date to [D2], and writes the record of [D2] with all checks
    false, whatever the stored checks were. A call of [toggleCheck] at
    such a time does the same in a component whose current date is
    [D1], as it is after a load of the record on its day:
    [toggleCheck] compares [D2] with the current date, not with the
    record. *)
Theorem rollover_resets (now : Z) (w : World) (s : string)
    (props : list (string * jsval)) (D1 : string) :
  storage_works (localStorage w) ->
  snapshot w = Some s ->
  JSON_parse s = Some (JObj props) ->
  JsVal.obj_get props "date" = Some (JStr D1) ->
  getTodayString now <> D1 ->
  let D2 := getTodayString now in
  let fresh := JSON_stringify (mkStoredData D2 allFalse) in
  (fst (loadData now w) = Normal tt
   /\ checks (app (after (loadData now) w)) = allFalse
   /\ lastDate (app (after (loadData now) w)) = D2
   /\ snapshot (after (loadData now) w) = Some fresh
   /\ writes (after (loadData now) w) = (writes w ++ [(KEY, fresh)])%list)
  /\ (forall (slot : TimeSlot) (t1 : Z),
        getTodayString t1 = D1 ->
        let w1 := after (loadData t1) w in
        lastDate (app w1) = D1
        /\ snapshot w1 = Some s
        /\ fst (toggleCheck slot now w1) = Normal tt
        /\ checks (app (after (toggleCheck slot now) w1)) = allFalse
        /\ lastDate (app (after (toggleCheck slot now) w1)) = D2
        /\ snapshot (after (toggleCheck slot now) w1) = Some fresh
        /\ writes (after (toggleCheck slot now) w1)
           = (writes w ++ [(KEY, fresh)])%list)
  /\ (forall slot : TimeSlot,
        lastDate (app w) = D1 ->
        fst (toggleCheck slot now w) = Normal tt
        /\ checks (app (after (toggleCheck slot now) w)) = allFalse
        /\ lastDate (app (after (toggleCheck slot now) w)) = D2
        /\ snapshot (after (toggleCheck slot now) w) = Some fresh
        /\ writes (after (toggleCheck slot now) w) = (writes w ++ [(KEY, fresh)])%list).
Proof.
  intros [Hg Hst] Hs Hp Hd Hne D2 fresh. split; [| split].
  - unfold after.
    rewrite (loadData_stale now w s (JObj props) (JStr D1)); try assumption.
    + rewrite Hst. cbn [fst snd app checks lastDate writes].
      rewrite snapshot_write_item. repeat split; reflexivity.
    + cbn. now rewrite Hd.
    + congruence.
  - intros slot t1 Ht1 w1. subst w1. unfold after.
    rewrite (loadData_same_day t1 w s (JObj props)
               (default JUndefined (JsVal.obj_get props "checks")));
      [| assumption | assumption | assumption
       | cbn; now rewrite Hd, Ht1 | reflexivity].
    cbn [snd]. rewrite toggleCheck_stale by (simpl_world; congruence).
    simpl_world. rewrite Hst. simpl_world.
    rewrite snapshot_write_item.
    repeat split; try reflexivity; try assumption.
  - intros slot Hl. unfold after.
    rewrite toggleCheck_stale by congruence.
    rewrite Hst. cbn [fst snd app checks lastDate writes].
    rewrite snapshot_write_item. repeat split; reflexivity.
Qed.

(** C2 (P4, discarded stale toggle). For every slot, a call of
    [toggleCheck] at a time whose date is not the current date only
    resets: all checks false, the slot clicked among them whatever it
    held, the current date set to today and the reset record written. *)
Theorem stale_toggle_discarded (slot : TimeSlot) (now : Z) (w : World) :
  setItem_throws (localStorage w) = false ->
  getTodayString now <> lastDate (app w) ->
  let w1 := after (toggleCheck slot now) w in
  let today := getTodayString now in
  fst (toggleCheck slot now w) = Normal tt
  /\ checks (app w1) = allFalse
  /\ slot_bool (checks (app w1)) slot = Some false
  /\ lastDate (app w1) = today
  /\ snapshot w1 = Some (JSON_stringify (mkStoredData today allFalse))
  /\ writes w1 = (writes w ++ [(KEY, JSON_stringify (mkStoredData today allFalse))])%list.
Proof.
  intros Hst Hne w1 today. subst w1. unfold after.
  rewrite toggleCheck_stale by assumption.
  rewrite Hst. cbn [fst snd app checks lastDate writes].
  rewrite snapshot_write_item.
  repeat split; try reflexivity. now destruct slot.
Qed.

(** C7 (P3, toggle flips exactly one slot). On the current day, with a
    working storage and a check state of three booleans, [toggleCheck]
    negates the boolean of its slot, keeps the two others, and writes the
    record of today with the new checks. *)
Theorem toggle_flips_one_slot (slot : TimeSlot) (now : Z) (w : World) :
  setItem_throws (localStorage w) = false ->
  getTodayString now = lastDate (app w) ->
  is_CheckState (checks (app w)) = true ->
  let w1 := after (toggleCheck slot now) w in
  let record := JSON_stringify (mkStoredData (getTodayString now) (checks (app w1))) in
  fst (toggleCheck slot now w) = Normal tt
  /\ slot_bool (checks (app w1)) slot = negb <$> slot_bool (checks (app w)) slot
  /\ is_Some (slot_bool (checks (app w)) slot)
  /\ (forall slot' : TimeSlot, slot' <> slot ->
        slot_bool (checks (app w1)) slot' = slot_bool (checks (app w)) slot')
  /\ is_CheckState (checks (app w1)) = true
  /\ lastDate (app w1) = lastDate (app w)
  /\ snapshot w1 = Some record
  /\ writes w1 = (writes w ++ [(KEY, record)])%list.
Proof.
  intros Hst Heq Hc w1 record. subst w1 record. unfold after.
  destruct (is_CheckState_slot _ slot Hc) as (props & b & Hprops & Hg).
  assert (Hold : JsVal.Get (checks (app w)) (slot_key slot) = Normal (JBool b)).
  { rewrite Hprops. cbn. now rewrite Hg. }
  pose proof (is_CheckState_toggled _ slot _ Hc Hold) as Hc'.
  rewrite (toggleCheck_same_day slot now w (JBool b)) by assumption.
  cbn zeta. rewrite Hst. cbn [fst snd app checks lastDate writes].
  rewrite snapshot_write_item.
  rewrite Hprops in *. unfold toggled in *. cbn [JsVal.own_props JsVal.ToBoolean slot_bool] in *.
  rewrite obj_get_set_eq, Hg. cbn.
  repeat split; try reflexivity; try assumption.
  - now exists b.
  - intros slot' Hne. rewrite obj_get_set_ne; [reflexivity |].
    intros Hk. apply slot_key_inj in Hk. congruence.
Qed.

(** The same on an object literal: the other two fields are unchanged. *)
Lemma toggle_literal (slot : TimeSlot) (m l d : bool) :
  toggled (mkCheckState m l d) slot
          (default JUndefined
             (JsVal.obj_get [("morning", JBool m); ("lunch", JBool l); ("dinner", JBool d)]
                            (slot_key slot)))
  = match slot with
    | morning => mkCheckState (negb m) l d
    | lunch => mkCheckState m (negb l) d
    | dinner => mkCheckState m l (negb d)
    end.
Proof. now destruct slot. Qed.

Lemma loadData_same_day_record now w s props c :
  getItem_throws (localStorage w) = false ->
  snapshot w = Some s ->
  JSON_parse s = Some (JObj props) ->
  JsVal.obj_get props "date" = Some (JStr (getTodayString now)) ->
  default JUndefined (JsVal.obj_get props "checks") = c ->
  loadData now w =
  (Normal tt,
   mkWorld (mkAppState c (getTodayString now) true)
           (localStorage w) (console w) (writes w)).
Proof.
  intros Hg Hs Hp Hd Hc.
  apply (loadData_same_day now w s (JObj props) c); try assumption.
  - cbn. now rewrite Hd.
  - cbn. now rewrite Hc.
Qed.

(** C8 (P1, idempotent reconcile). With a storage that can be read and
    holds a record of today with the checks [c], the first call of
    [loadData] on that day sets the checks to [c] and the current date
    to today and leaves the storage alone; every further call on that
    day, any number of them, returns normally and changes nothing at
    all. *)
Theorem reconcile_idempotent (w : World) (s : string)
    (props : list (string * jsval)) (c : jsval) (today : string)
    (now : Z) (nows : list Z) :
  getItem_throws (localStorage w) = false ->
  snapshot w = Some s ->
  JSON_parse s = Some (JObj props) ->
  JsVal.obj_get props "date" = Some (JStr today) ->
  JsVal.obj_get props "checks" = Some c ->
  getTodayString now = today ->
  Forall (fun t => getTodayString t = today) nows ->
  let w1 := after (loadData now) w in
  fst (loadData now w) = Normal tt
  /\ checks (app w1) = c
  /\ lastDate (app w1) = today
  /\ localStorage w1 = localStorage w
  /\ writes w1 = writes w
  /\ (forall t, getTodayString t = today -> loadData t w1 = (Normal tt, w1))
  /\ run (map Visible nows) w1 = w1.
Proof.
  intros Hg Hs Hp Hd Hc Hnow Hnows w1. subst w1 today. unfold after.
  rewrite (loadData_same_day_record now w s props c); try assumption;
    [| now rewrite Hc].
  cbn [fst snd app checks lastDate localStorage writes].
  set (w1 := mkWorld _ _ _ _).
  assert (Hfix : forall t, getTodayString t = getTodayString now ->
                           loadData t w1 = (Normal tt, w1)).
  { intros t Ht.
    rewrite (loadData_same_day_record t w1 s props c); try assumption.
    - subst w1. cbn. now rewrite Ht.
    - now rewrite Ht.
    - now rewrite Hc. }
  repeat split; try reflexivity; [exact Hfix |].
  induction Hnows as [| t nows Ht _ IH]; [reflexivity |].
  change (run (map Visible nows) (after (loadData t) w1) = w1).
  unfold after. rewrite (Hfix t Ht). exact IH.
Qed.

(** C9 (Scenario A, nothing stored), as amended. When the storage can
    be read and holds no item, [loadData] returns, sets the current date
    to today and [isLoaded], and writes and logs nothing: the storage is
    as it was, still without the item. It leaves the checks as they
    are: all false at the first load of a component, and in every world
    of a component whose writes go through. *)
Theorem no_snapshot_no_write (now : Z) (w : World) :
  getItem_throws (localStorage w) = false ->
  snapshot w = None ->
  let w1 := after (loadData now) w in
  fst (loadData now w) = Normal tt
  /\ checks (app w1) = checks (app w)
  /\ lastDate (app w1) = getTodayString now
  /\ isLoaded (app w1) = true
  /\ localStorage w1 = localStorage w
  /\ writes w1 = writes w
  /\ console w1 = console w
  /\ snapshot w1 = None
  /\ (forall t0 : Z, app w = initialState t0 -> checks (app w1) = allFalse)
  /\ (reachable w -> setItem_throws (localStorage w) = false ->
      checks (app w1) = allFalse).
Proof.
  intros Hg Hs w1. subst w1. unfold after.
  rewrite loadData_no_snapshot; [| assumption | now rewrite Hs].
  simpl_world.
  repeat split; try reflexivity; try assumption.
  - intros t0 Ht0. now rewrite Ht0.
  - intros Hr Hst. now apply reachable_empty_store.
Qed.

(** What [loadData] does in every case once [getItem] has returned. *)
Lemma loadData_caught (now : Z) (w : World) :
  getItem_throws (localStorage w) = false ->
  let w1 := after (loadData now) w in
  fst (loadData now w) = Normal tt
  /\ isLoaded (app w1) = true
  /\ (console w1 = console w \/ exists e, console w1 = (console w ++ [e])%list)
  /\ (setItem_throws (localStorage w) = true ->
      localStorage w1 = localStorage w /\ writes w1 = writes w)
  /\ (forall s v d,
        snapshot w = Some s -> JSON_parse s = Some v ->
        JsVal.Get v "date" = Normal d -> d <> JStr (getTodayString now) ->
        setItem_throws (localStorage w) = true ->
        checks (app w1) = allFalse
        /\ lastDate (app w1) = getTodayString now
        /\ console w1 = (console w ++ [DOMException])%list).
Proof.
  intros Hg w1. subst w1. unfold after.
  destruct (load_cases now w) as [Ht | s Hs Ht Hp | s v e Hs Hp Hd | s v c Hs Hp Hd Hc
                                 | s v d Hs Hp Hd Hne].
  - rewrite loadData_no_snapshot by assumption. simpl_world.
    split; [reflexivity |]. split; [reflexivity |]. split; [now left |].
    split; [intros _; split; reflexivity |].
    intros s v d Hs Hp. rewrite Hs, (item_truthy_parsed _ _ Hp) in Ht.
    discriminate.
  - rewrite (loadData_not_json now w s) by assumption. simpl_world.
    split; [reflexivity |]. split; [reflexivity |]. split; [right; eauto |].
    split; [intros _; split; reflexivity |].
    intros s' v d Hs' Hp'. congruence.
  - rewrite (loadData_no_properties now w s v e) by assumption. simpl_world.
    split; [reflexivity |]. split; [reflexivity |]. split; [right; eauto |].
    split; [intros _; split; reflexivity |].
    intros s' v' d Hs' Hp' Hd'. congruence.
  - rewrite (loadData_same_day now w s v c) by assumption. simpl_world.
    split; [reflexivity |]. split; [reflexivity |]. split; [now left |].
    split; [intros _; split; reflexivity |].
    intros s' v' d Hs' Hp' Hd' Hne'. congruence.
  - rewrite (loadData_stale now w s v d) by assumption.
    destruct (setItem_throws (localStorage w)) eqn:Hst; simpl_world.
    + split; [reflexivity |]. split; [reflexivity |]. split; [right; eauto |].
      split; [intros _; split; reflexivity |].
      intros; repeat split; reflexivity.
    + split; [reflexivity |]. split; [reflexivity |]. split; [now left |].
      split; [discriminate |]. intros; discriminate.
Qed.

(** C4 (storage failures), as amended: in [loadData], once [getItem]
    has returned, a text that does not parse, a value without properties
    and a write that fails are caught inside the call and logged: it
    returns normally with [isLoaded] set; the text that does not parse
    is logged as one SyntaxError and the value without properties as one
    TypeError, with the state and the storage as they were; when the
    write fails the storage is as it was, the reset already made to the
    checks and the current date stays and one DOMException is logged;
    in the other cases nothing is logged. *)
Theorem loadData_catches (now : Z) (w : World) :
  getItem_throws (localStorage w) = false ->
  let w1 := after (loadData now) w in
  fst (loadData now w) = Normal tt
  /\ isLoaded (app w1) = true
  /\ (console w1 = console w \/ exists e, console w1 = (console w ++ [e])%list)
  /\ (setItem_throws (localStorage w) = true ->
      localStorage w1 = localStorage w /\ writes w1 = writes w)
  /\ (forall s v d,
        snapshot w = Some s -> JSON_parse s = Some v ->
        JsVal.Get v "date" = Normal d -> d <> JStr (getTodayString now) ->
        setItem_throws (localStorage w) = true ->
        checks (app w1) = allFalse
        /\ lastDate (app w1) = getTodayString now
        /\ console w1 = (console w ++ [DOMException])%list)
  /\ (forall s,
        snapshot w = Some s -> item_truthy (Some s) = true ->
        JSON_parse s = None ->
        console w1 = (console w ++ [SyntaxError])%list
        /\ checks (app w1) = checks (app w)
        /\ lastDate (app w1) = lastDate (app w)
        /\ localStorage w1 = localStorage w
        /\ writes w1 = writes w)
  /\ (forall s v,
        snapshot w = Some s -> JSON_parse s = Some v ->
        v = JNull \/ v = JUndefined ->
        console w1 = (console w ++ [TypeError])%list
        /\ checks (app w1) = checks (app w)
        /\ lastDate (app w1) = lastDate (app w)
        /\ localStorage w1 = localStorage w
        /\ writes w1 = writes w)
  /\ (item_truthy (snapshot w) = false -> console w1 = console w)
  /\ (forall s v d,
        snapshot w = Some s -> JSON_parse s = Some v ->
        JsVal.Get v "date" = Normal d ->
        d = JStr (getTodayString now) \/ setItem_throws (localStorage w) = false ->
        console w1 = console w).
Proof.
  intros Hg w1.
  destruct (loadData_caught now w Hg) as (H1 & H2 & H3 & H4 & H5).
  fold w1 in H2, H3, H4, H5.
  split; [exact H1 |]. split; [exact H2 |]. split; [exact H3 |].
  split; [exact H4 |]. split; [exact H5 |].
  subst w1. unfold after.
  split; [| split; [| split]].
  - intros s Hs Ht Hp. rewrite (loadData_not_json now w s) by assumption.
    simpl_world. repeat split; reflexivity.
  - intros s v Hs Hp Hv.
    rewrite (loadData_no_properties now w s v TypeError); try assumption.
    + simpl_world. repeat split; reflexivity.
    + destruct Hv as [-> | ->]; reflexivity.
  - intros Ht. rewrite loadData_no_snapshot by assumption. reflexivity.
  - intros s v d Hs Hp Hd Hcase.
    destruct (Get_Normal_any _ _ _ "checks" Hd) as [c Hc].
    assert (Hdec : d = JStr (getTodayString now) \/ d <> JStr (getTodayString now)).
    { destruct d as [| | b | x | d' | elems | props];
        try (right; discriminate).
      destruct (String.eqb_spec d' (getTodayString now)) as [-> | Hne];
        [now left | right; congruence]. }
    destruct Hdec as [-> | Hne].
    + now rewrite (loadData_same_day now w s v c).
    + destruct Hcase as [-> | Hst]; [contradiction |].
      rewrite (loadData_stale now w s v d) by assumption. now rewrite Hst.
Qed.

(** C5 (malformed data), as amended: with a storage that can be read and
    a stored text that is not empty, [loadData] returns normally; a text
    that does not parse, or one that parses to a value without
    properties, is logged and leaves the checks and the current date as
    they were; a value whose [date] is not today's string sets all checks
    false and the current date to today. *)
Theorem malformed_snapshot (now : Z) (w : World) (s : string) :
  getItem_throws (localStorage w) = false ->
  snapshot w = Some s ->
  item_truthy (Some s) = true ->
  let w1 := after (loadData now) w in
  fst (loadData now w) = Normal tt
  /\ match JSON_parse s with
     | None =>
         checks (app w1) = checks (app w)
         /\ lastDate (app w1) = lastDate (app w)
         /\ localStorage w1 = localStorage w
         /\ console w1 = (console w ++ [SyntaxError])%list
     | Some v =>
         match JsVal.Get v "date" with
         | Throw e =>
             checks (app w1) = checks (app w)
             /\ lastDate (app w1) = lastDate (app w)
             /\ localStorage w1 = localStorage w
             /\ console w1 = (console w ++ [e])%list
         | Normal d =>
             d <> JStr (getTodayString now) ->
             checks (app w1) = allFalse
             /\ lastDate (app w1) = getTodayString now
         end
     end.
Proof.
  intros Hg Hs Ht w1. subst w1. unfold after.
  destruct (JSON_parse s) as [v |] eqn:Hp.
  - destruct (JsVal.Get v "date") as [d | e] eqn:Hd.
    + split.
      * now apply loadData_returns.
      * intros Hne. rewrite (loadData_stale now w s v d) by assumption.
        destruct (setItem_throws (localStorage w)); cbn; split; reflexivity.
    + rewrite (loadData_no_properties now w s v e) by assumption. cbn.
      repeat split; reflexivity.
  - rewrite (loadData_not_json now w s) by assumption. cbn.
    repeat split; reflexivity.
Qed.

(** C6 (missing slot keys), as amended: with a storage that can be read
    and a stored record of today, [loadData] takes the record's [checks]
    as they are. A slot key the stored checks lack is still lacking in
    the state: reading it gives undefined, no boolean, and the state is
    not a check state of three booleans. *)
Theorem same_day_load_verbatim (now : Z) (w : World) (s : string)
    (props : list (string * jsval)) :
  getItem_throws (localStorage w) = false ->
  snapshot w = Some s ->
  JSON_parse s = Some (JObj props) ->
  JsVal.obj_get props "date" = Some (JStr (getTodayString now)) ->
  let w1 := after (loadData now) w in
  fst (loadData now w) = Normal tt
  /\ checks (app w1) = default JUndefined (JsVal.obj_get props "checks")
  /\ lastDate (app w1) = getTodayString now
  /\ (forall (cprops : list (string * jsval)) (slot : TimeSlot),
        JsVal.obj_get props "checks" = Some (JObj cprops) ->
        JsVal.obj_get cprops (slot_key slot) = None ->
        JsVal.Get (checks (app w1)) (slot_key slot) = Normal JUndefined
        /\ slot_bool (checks (app w1)) slot = None
        /\ is_CheckState (checks (app w1)) = false).
Proof.
  intros Hg Hs Hp Hd w1. subst w1. unfold after.
  rewrite (loadData_same_day_record now w s props _ Hg Hs Hp Hd eq_refl).
  simpl_world.
  split; [reflexivity |]. split; [reflexivity |]. split; [reflexivity |].
  intros cprops slot Hc Hmiss. rewrite Hc. cbn [default from_option id].
  assert (Hb : has_bool_slot cprops slot = false)
    by (unfold has_bool_slot; now rewrite Hmiss).
  split; [cbn; now rewrite Hmiss |].
  split; [cbn; now rewrite Hmiss |].
  cbn [is_CheckState].
  destruct slot; rewrite Hb; rewrite ?andb_false_r; reflexivity.
Qed.

(** C10 (what is written), as amended: a call of [loadData] or of
    [toggleCheck] writes at most once, under the key of the component,
    the record of the date of the call and of the checks the call leaves
    in the state; these are all false in the two reset branches and, in
    the same-day branch of [toggleCheck], the checks of the state with
    the slot negated, which are three booleans whenever those of the
    state were. A click whose write goes through writes exactly once,
    unless the checks are null or undefined. *)
Theorem writes_are_records (ev : event) (w : World) :
  let w1 := after (handle ev) w in
  let today := getTodayString (event_time ev) in
  (writes w1 = writes w
   \/ exists c : jsval,
        writes w1 = (writes w ++ [(KEY, JSON_stringify (mkStoredData today c))])%list
        /\ snapshot w1 = Some (JSON_stringify (mkStoredData today c))
        /\ (c = allFalse
            \/ exists slot old,
                 ev = Click slot (event_time ev)
                 /\ today = lastDate (app w)
                 /\ JsVal.Get (checks (app w)) (slot_key slot) = Normal old
                 /\ c = toggled (checks (app w)) slot old)
        /\ (is_CheckState (checks (app w)) = true -> is_CheckState c = true)
        /\ c = checks (app w1)
        /\ lastDate (app w1) = today
        /\ match ev with
           | Visible _ => c = allFalse
           | Click slot _ =>
               if String.eqb today (lastDate (app w)) then
                 exists old,
                   JsVal.Get (checks (app w)) (slot_key slot) = Normal old
                   /\ c = toggled (checks (app w)) slot old
               else c = allFalse
           end)
  /\ match ev with
     | Visible _ => True
     | Click slot _ =>
         setItem_throws (localStorage w) = false ->
         (exists old, JsVal.Get (checks (app w)) (slot_key slot) = Normal old) ->
         exists v, writes w1 = (writes w ++ [(KEY, v)])%list
     end.
Proof.
  intros w1 today. subst w1 today. unfold after.
  destruct ev as [now | slot now]; cbn [handle event_time].
  - split; [| exact I].
    destruct (getItem_throws (localStorage w)) eqn:Hg.
    { rewrite loadData_read_fails by assumption. now left. }
    destruct (load_cases now w) as [Ht | s Hs Ht Hp | s v e Hs Hp Hd | s v c Hs Hp Hd Hc
                                   | s v d Hs Hp Hd Hne].
    + rewrite loadData_no_snapshot by assumption. now left.
    + rewrite (loadData_not_json now w s) by assumption. now left.
    + rewrite (loadData_no_properties now w s v e) by assumption. now left.
    + rewrite (loadData_same_day now w s v c) by assumption. now left.
    + rewrite (loadData_stale now w s v d) by assumption.
      destruct (setItem_throws (localStorage w)); [now left | right].
      exists allFalse. simpl_world. rewrite snapshot_write_item.
      repeat split; try reflexivity. now left.
  - destruct (toggle_cases slot now w) as [Hne | old He Hg | e He Hg].
    + rewrite toggleCheck_stale by assumption.
      destruct (String.eqb_spec (getTodayString now) (lastDate (app w)))
        as [Heq | _]; [contradiction |].
      destruct (setItem_throws (localStorage w)); simpl_world.
      * split; [now left | discriminate].
      * split; [| intros _ _; eauto]. right.
        exists allFalse. rewrite snapshot_write_item.
        repeat split; try reflexivity. now left.
    + rewrite (toggleCheck_same_day slot now w old) by assumption. cbn zeta.
      rewrite <- He, String.eqb_refl.
      destruct (setItem_throws (localStorage w)); simpl_world.
      * split; [now left | discriminate].
      * split; [| intros _ _; eauto]. right.
        exists (toggled (checks (app w)) slot old).
        rewrite snapshot_write_item.
        repeat split; try reflexivity.
        -- right. exists slot, old. repeat split; assumption.
        -- intros Hc. now apply is_CheckState_toggled.
        -- exists old. split; [assumption | reflexivity].
    + rewrite (toggleCheck_no_properties slot now w e) by assumption.
      split; [now left |]. intros _ [old Hold]. congruence.
Qed.

End Claims.

(** ** Concrete runs, on the reference [JSON] *)

Module Scenarios.

Import RefJSON.

(** Noon and eight in the evening of 1 May 2024, and noon of the next
    day, UTC. *)
Definition may1_noon : Z := 1714564800000.
Definition may1_evening : Z := 1714593600000.
Definition may2_noon : Z := 1714651200000.

(** Japan Standard Time, nine hours ahead of UTC. *)
Definition JST : Z := 9 * JsDate.msPerHour.

Definition working (stored : option string) : Storage :=
  mkStorage (match stored with Some s => {[ KEY := s ]} | None => ∅ end)
            false false.

Definition full_day : string :=
  text "{'date':'2024-05-01','checks':{'morning':true,'lunch':true,'dinner':true}}".

Definition morning_done : string :=
  text "{'date':'2024-05-01','checks':{'morning':true,'lunch':false,'dinner':false}}".

Definition morning_only : string :=
  text "{'date':'2024-05-01','checks':{'morning':true}}".

Definition date_only : string := text "{'date':'2024-05-01'}".

Definition fresh_may2 : string :=
  text "{'date':'2024-05-02','checks':{'morning':false,'lunch':false,'dinner':false}}".

Example dates :
  getTodayString may1_noon = "2024-05-01"
  /\ getTodayString may1_evening = "2024-05-01"
  /\ getTodayString may2_noon = "2024-05-02".
Proof. repeat split; reflexivity. Qed.

Example parse_full_day :
  parse full_day
  = Some (JObj [("date", JStr "2024-05-01"); ("checks", mkCheckState true true true)]).
Proof. reflexivity. Qed.

Example parse_not_json : parse "not json" = None.
Proof. reflexivity. Qed.

Example stringify_fresh :
  stringify (mkStoredData "2024-05-02" allFalse) = fresh_may2.
Proof. reflexivity. Qed.

(** Scenario A: nothing stored. *)
Example scenario_A :
  let w := mount may1_noon (working None) in
  app w = mkAppState allFalse "2024-05-01" true /\ snapshot w = None /\ writes w = [].
Proof. repeat split; reflexivity. Qed.

(** Scenario B: a record of today, then a click on lunch. *)
Example scenario_B :
  let w := mount may1_noon (working (Some morning_done)) in
  let w' := after (toggleCheck lunch may1_evening) w in
  checks (app w) = mkCheckState true false false
  /\ writes w = []
  /\ checks (app w') = mkCheckState true true false
  /\ snapshot w'
     = Some (text "{'date':'2024-05-01','checks':{'morning':true,'lunch':true,'dinner':false}}").
Proof. repeat split; reflexivity. Qed.

(** Scenario C: a click on the day after the record's. *)
Example scenario_C :
  let w := mount may1_noon (working (Some full_day)) in
  let w' := after (toggleCheck morning may2_noon) w in
  checks (app w') = allFalse
  /\ lastDate (app w') = "2024-05-02"
  /\ snapshot w' = Some fresh_may2.
Proof. repeat split; reflexivity. Qed.

(** P5: the text [not json]. *)
Example scenario_not_json :
  let w := mount may1_noon (working (Some "not json")) in
  app w = mkAppState allFalse "2024-05-01" true
  /\ console w = [SyntaxError]
  /\ snapshot w = Some "not json".
Proof. repeat split; reflexivity. Qed.

End Scenarios.

(** C3 (the date string). The string [getTodayString] gives is the date
    on the clock of UTC ([getTodayString_utc]), not the one on the local
    clock: at 20:00 UTC on 1 May 2024 it is 05:00 on 2 May in Japan, and
    [getTodayString] gives 2024-05-01. *)
Theorem getTodayString_not_local :
  getTodayString Scenarios.may1_evening = "2024-05-01"
  /\ localDateString Scenarios.JST Scenarios.may1_evening = "2024-05-02"
  /\ getTodayString Scenarios.may1_evening
     <> localDateString Scenarios.JST Scenarios.may1_evening.
Proof.
  split; [reflexivity |]. split; [reflexivity |].
  vm_compute. intros H. discriminate H.
Qed.

(** ** The claims at concrete inputs *)

Import Scenarios.

Lemma rollover_resets_witness :
  let w := mount may1_noon (working (Some full_day)) in
  storage_works (localStorage w)
  /\ getTodayString may2_noon <> "2024-05-01"
  /\ getTodayString may1_evening = "2024-05-01"
  /\ checks (app (after (loadData may2_noon) w)) = allFalse
  /\ snapshot (after (loadData may2_noon) w) = Some fresh_may2
  /\ snapshot (after (toggleCheck dinner may2_noon)
                     (after (loadData may1_evening) w)) = Some fresh_may2
  /\ snapshot (after (toggleCheck dinner may2_noon) w) = Some fresh_may2.
Proof.
  intros w.
  assert (Hw : storage_works (localStorage w)) by (split; reflexivity).
  assert (Hne : getTodayString may2_noon <> "2024-05-01")
    by (vm_compute; intros H; discriminate H).
  destruct (rollover_resets (json := RefJSON.ref_json) may2_noon w full_day
              [("date", JStr "2024-05-01"); ("checks", mkCheckState true true true)]
              "2024-05-01" Hw eq_refl eq_refl eq_refl Hne)
    as [(_ & Hc & _ & Hs & _) [Hcomp Ht]].
  destruct (Hcomp dinner may1_evening eq_refl) as (_ & _ & _ & _ & _ & Hs1 & _).
  destruct (Ht dinner eq_refl) as (_ & _ & _ & Hs' & _).
  split; [exact Hw |]. split; [exact Hne |]. split; [reflexivity |].
  split; [exact Hc |]. split; [exact Hs |]. split; [exact Hs1 | exact Hs'].
Defined.

Lemma stale_toggle_discarded_witness :
  let w := mount may1_noon (working (Some full_day)) in
  setItem_throws (localStorage w) = false
  /\ getTodayString may2_noon <> lastDate (app w)
  /\ slot_bool (checks (app w)) morning = Some true
  /\ slot_bool (checks (app (after (toggleCheck morning may2_noon) w))) morning
     = Some false.
Proof.
  intros w.
  assert (Hne : getTodayString may2_noon <> lastDate (app w))
    by (vm_compute; intros H; discriminate H).
  destruct (stale_toggle_discarded (json := RefJSON.ref_json) morning may2_noon w eq_refl Hne)
    as (_ & _ & Hb & _).
  split; [reflexivity |]. split; [exact Hne |]. split; [reflexivity | exact Hb].
Defined.

Lemma toggle_flips_one_slot_witness :
  let w := mount may1_noon (working (Some morning_done)) in
  let w1 := after (toggleCheck lunch may1_evening) w in
  setItem_throws (localStorage w) = false
  /\ getTodayString may1_evening = lastDate (app w)
  /\ is_CheckState (checks (app w)) = true
  /\ slot_bool (checks (app w1)) lunch = negb <$> slot_bool (checks (app w)) lunch
  /\ slot_bool (checks (app w1)) morning = slot_bool (checks (app w)) morning.
Proof.
  intros w w1.
  destruct (toggle_flips_one_slot (json := RefJSON.ref_json) lunch may1_evening w eq_refl eq_refl eq_refl)
    as (_ & Hb & _ & Hother & _).
  split; [reflexivity |]. split; [reflexivity |]. split; [reflexivity |].
  split; [exact Hb |]. apply Hother. discriminate.
Defined.

Lemma reconcile_idempotent_witness :
  let w := mkWorld (initialState may1_noon) (working (Some morning_done)) [] [] in
  let w1 := after (loadData may1_noon) w in
  getItem_throws (localStorage w) = false
  /\ Forall (fun t => getTodayString t = "2024-05-01") [may1_evening; may1_noon]
  /\ checks (app w1) = mkCheckState true false false
  /\ run [Visible may1_evening; Visible may1_noon] w1 = w1.
Proof.
  intros w w1.
  assert (Hall : Forall (fun t => getTodayString t = "2024-05-01")
                        [may1_evening; may1_noon])
    by (repeat constructor).
  destruct (reconcile_idempotent (json := RefJSON.ref_json) w morning_done
              [("date", JStr "2024-05-01"); ("checks", mkCheckState true false false)]
              (mkCheckState true false false) "2024-05-01" may1_noon
              [may1_evening; may1_noon] eq_refl eq_refl eq_refl eq_refl eq_refl
              eq_refl Hall)
    as (_ & Hc & _ & _ & _ & _ & Hrun).
  split; [reflexivity |]. split; [exact Hall |]. split; [exact Hc | exact Hrun].
Defined.

Lemma no_snapshot_no_write_witness :
  let w := mount may1_noon (working None) in
  getItem_throws (localStorage w) = false
  /\ snapshot w = None
  /\ checks (app (after (loadData may2_noon) w)) = checks (app w)
  /\ lastDate (app (after (loadData may2_noon) w)) = "2024-05-02"
  /\ writes (after (loadData may2_noon) w) = []
  /\ snapshot (after (loadData may2_noon) w) = None.
Proof.
  intros w.
  destruct (no_snapshot_no_write (json := RefJSON.ref_json) may2_noon w
              eq_refl eq_refl)
    as (_ & Hc & Hd & _ & _ & Hwr & _ & Hs & _).
  split; [reflexivity |]. split; [reflexivity |]. split; [exact Hc |].
  split; [exact Hd |]. split; [exact Hwr | exact Hs].
Defined.

Lemma loadData_catches_witness :
  let w := mkWorld (initialState may2_noon)
                   (mkStorage {[ KEY := full_day ]} false true) [] [] in
  let w1 := after (loadData may2_noon) w in
  getItem_throws (localStorage w) = false
  /\ fst (loadData may2_noon w) = Normal tt
  /\ isLoaded (app w1) = true
  /\ localStorage w1 = localStorage w
  /\ console w1 = [DOMException].
Proof.
  intros w w1.
  destruct (loadData_catches (json := RefJSON.ref_json) may2_noon w eq_refl)
    as (Hn & Hl & _ & Hsto & Hreset & _).
  destruct (Hsto eq_refl) as [Hs _].
  assert (Hne : JStr "2024-05-01" <> JStr (getTodayString may2_noon))
    by (vm_compute; intros H; discriminate H).
  destruct (Hreset full_day
              (JObj [("date", JStr "2024-05-01"); ("checks", mkCheckState true true true)])
              (JStr "2024-05-01") eq_refl eq_refl eq_refl Hne eq_refl)
    as (_ & _ & Hcon).
  split; [reflexivity |]. split; [exact Hn |]. split; [exact Hl |].
  split; [exact Hs | exact Hcon].
Defined.

Lemma malformed_snapshot_witness :
  let w := mkWorld (initialState may1_noon) (working (Some "not json")) [] [] in
  let w1 := after (loadData may1_noon) w in
  getItem_throws (localStorage w) = false
  /\ snapshot w = Some "not json"
  /\ fst (loadData may1_noon w) = Normal tt
  /\ checks (app w1) = allFalse
  /\ lastDate (app w1) = "2024-05-01"
  /\ console w1 = [SyntaxError].
Proof.
  intros w w1.
  destruct (malformed_snapshot (json := RefJSON.ref_json) may1_noon w "not json" eq_refl eq_refl eq_refl)
    as (Hn & Hc & Hd & _ & Hcon).
  split; [reflexivity |]. split; [reflexivity |]. split; [exact Hn |].
  split; [exact Hc |]. split; [exact Hd | exact Hcon].
Defined.

Lemma same_day_load_verbatim_witness :
  let w := mkWorld (initialState may1_noon) (working (Some morning_only)) [] [] in
  let w1 := after (loadData may1_noon) w in
  getItem_throws (localStorage w) = false
  /\ snapshot w = Some morning_only
  /\ checks (app w1) = JObj [("morning", JBool true)]
  /\ JsVal.Get (checks (app w1)) "lunch" = Normal JUndefined
  /\ is_CheckState (checks (app w1)) = false.
Proof.
  intros w w1.
  destruct (same_day_load_verbatim (json := RefJSON.ref_json) may1_noon w morning_only
              [("date", JStr "2024-05-01"); ("checks", JObj [("morning", JBool true)])]
              eq_refl eq_refl eq_refl eq_refl)
    as (_ & Hc & _ & Hmiss).
  destruct (Hmiss [("morning", JBool true)] lunch eq_refl eq_refl) as (Hg & _ & Hn).
  split; [reflexivity |]. split; [reflexivity |]. split; [exact Hc |].
  split; [exact Hg | exact Hn].
Defined.

(** ** Where the specification and the program part *)

(** Against C4: there is no [try] in [toggleCheck], and [getItem] is
    called before the [try] of [loadData]. A click while [setItem] fails,
    and a load while [getItem] fails, end in the storage's exception. *)
Lemma storage_failure_propagates :
  fst (toggleCheck lunch may1_evening
         (mount may1_noon (mkStorage ∅ false true)))
  = Throw DOMException
  /\ fst (loadData may1_noon
            (mkWorld (initialState may1_noon) (mkStorage ∅ true false) [] []))
     = Throw DOMException.
Proof. split; reflexivity. Qed.

(** Against C5: a stored record of today without [checks] leaves the
    checks undefined, not all false; and a text that does not parse,
    loaded again on the next day, leaves the current date at the day
    before. *)
Lemma malformed_not_reset :
  RefJSON.parse date_only = Some (JObj [("date", JStr "2024-05-01")])
  /\ checks (app (mount may1_noon (working (Some date_only)))) = JUndefined
  /\ RefJSON.parse "not json" = None
  /\ lastDate (app (after (loadData may2_noon)
                          (mount may1_noon (working (Some "not json")))))
     = "2024-05-01"
  /\ getTodayString may2_noon = "2024-05-02".
Proof. repeat split; reflexivity. Qed.

(** Against C6: a stored record of today whose checks have the slot
    [morning] only is loaded as it is; [lunch] and [dinner] are not
    set to false. *)
Lemma missing_slots_not_repaired :
  let w := mount may1_noon (working (Some morning_only)) in
  RefJSON.parse morning_only
  = Some (JObj [("date", JStr "2024-05-01"); ("checks", JObj [("morning", JBool true)])])
  /\ checks (app w) = JObj [("morning", JBool true)]
  /\ slot_bool (checks (app w)) lunch = None
  /\ slot_bool (checks (app w)) dinner = None
  /\ is_CheckState (checks (app w)) = false.
Proof. repeat split; reflexivity. Qed.

(** Against C10: after that load, a click on [lunch] writes a record
    whose checks have two fields, [dinner] not among them. *)
Lemma partial_record_written :
  let w := mount may1_noon (working (Some morning_only)) in
  let w1 := after (toggleCheck lunch may1_evening) w in
  let written :=
    RefJSON.text "{'date':'2024-05-01','checks':{'morning':true,'lunch':true}}" in
  reachable w
  /\ writes w1 = [(KEY, written)]
  /\ RefJSON.parse written
     = Some (JObj [("date", JStr "2024-05-01");
                   ("checks", JObj [("morning", JBool true); ("lunch", JBool true)])])
  /\ is_CheckState (JObj [("morning", JBool true); ("lunch", JBool true)]) = false.
Proof.
  split; [apply reachable_visible, reachable_first_render |].
  repeat split; reflexivity.
Qed.

(** Against C1: [toggleCheck] looks at the current date, not at the
    record. A component mounted on 2 May over the record of 1 May, its
    write failing and caught, has the current date 2 May while the
    storage still holds the record of 1 May; a click on 2 May is then
    taken as a same-day click, whether the storage works again or not:
    the card is checked, and what is written is no reset record. *)
Lemma toggle_ignores_stored_date :
  let failed := mount may2_noon (mkStorage {[ KEY := full_day ]} false true) in
  let w := mkWorld (app failed) (working (Some full_day))
                   (console failed) (writes failed) in
  let w1 := after (toggleCheck morning may2_noon) w in
  reachable failed
  /\ checks (app (after (toggleCheck morning may2_noon) failed))
     = mkCheckState true false false
  /\ storage_works (localStorage w)
  /\ snapshot w = Some full_day
  /\ RefJSON.parse full_day
     = Some (JObj [("date", JStr "2024-05-01");
                   ("checks", mkCheckState true true true)])
  /\ getTodayString may2_noon = "2024-05-02"
  /\ lastDate (app w) = "2024-05-02"
  /\ fst (toggleCheck morning may2_noon w) = Normal tt
  /\ checks (app w1) = mkCheckState true false false
  /\ snapshot w1
     = Some (RefJSON.text
               "{'date':'2024-05-02','checks':{'morning':true,'lunch':false,'dinner':false}}").
Proof.
  split; [apply reachable_visible, reachable_first_render |].
  split; [reflexivity |]. split; [split; reflexivity |].
  repeat split; reflexivity.
Qed.

(** Against C9: [loadData] does not set the checks when nothing is
    stored. With a [setItem] that fails, a click on 1 May checks the
    card in memory and leaves the storage empty; a load on 2 May then
    finds no item and keeps the card checked under the date of 2 May. *)
Lemma no_snapshot_keeps_checks :
  let w := after (toggleCheck morning may1_noon)
                 (mount may1_noon (mkStorage ∅ false true)) in
  let w1 := after (loadData may2_noon) w in
  reachable w
  /\ getItem_throws (localStorage w) = false
  /\ snapshot w = None
  /\ fst (loadData may2_noon w) = Normal tt
  /\ checks (app w1) = mkCheckState true false false
  /\ lastDate (app w1) = "2024-05-02"
  /\ snapshot w1 = None.
Proof.
  split.
  - apply reachable_click; [| reflexivity].
    apply reachable_visible, reachable_first_render.
  - repeat split; reflexivity.
Qed.

(** * The rest of the component

    What [App] computes on every render from its state (the count of the
    checks taken, the width of the progress bar, the gate on [isLoaded],
    what each card is given, the footer), the listener
    [handleVisibilityChange], and further properties of
    [getTodayString], [loadData] and [toggleCheck]. *)

(** ** Rendering *)

(** [Object.values(v)]: the values of the own enumerable properties; null
    and undefined cannot be converted to an object. *)
Definition Object_values (v : jsval) : completion (list jsval) :=
  match v with
  | JUndefined | JNull => Throw TypeError
  | JBool _ | JNum _ | JStr _ | JArr _ | JObj _ =>
      Normal (map snd (JsVal.own_props v))
  end.

(** [const completedCount = Object.values(checks).filter(Boolean).length] *)
Definition completedCount (checks : jsval) : completion nat :=
  match Object_values checks with
  | Normal values => Normal (length (List.filter JsVal.ToBoolean values))
  | Throw e => Throw e
  end.

(** A length as a number. *)
Definition number_of_nat (n : nat) : float :=
  PrimFloat.of_uint63 (Uint63.of_Z (Z.of_nat n)).

(** [const progress = (completedCount / 3) * 100], in binary64. *)
Definition progress (completedCount : nat) : float :=
  PrimFloat.mul (PrimFloat.div (number_of_nat completedCount) 3%float) 100%float.

(** What the markup of [App] depends on: the count shown as
    [{completedCount} / 3], the width [progress%] of the bar, the value
    each [TimeSlotCard] gets as [isChecked], and which footer is shown
    ([completedCount === 3]). *)
Record View : Type := mkView {
  shownCount : nat;
  barWidth : float;
  morningChecked : jsval;
  lunchChecked : jsval;
  dinnerChecked : jsval;
  goalReached : bool
}.

(** The body of [App] after the hooks: [completedCount] and [progress]
    are computed first, then [if (!isLoaded) return null], then the
    markup, which reads [checks.morning], [checks.lunch] and
    [checks.dinner]. [None] is the null of an empty page. *)
Definition render (s : AppState) : completion (option View) :=
  match completedCount (checks s) with
  | Throw e => Throw e
  | Normal n =>
      if negb (isLoaded s) then Normal None
      else
        match JsVal.Get (checks s) "morning",
              JsVal.Get (checks s) "lunch",
              JsVal.Get (checks s) "dinner" with
        | Normal m, Normal l, Normal d =>
            Normal (Some (mkView n (progress n) m l d (n =? 3)%nat))
        | Throw e, _, _ | _, Throw e, _ | _, _, Throw e => Throw e
        end
  end.

(** [TimeSlotCard] tests its [isChecked] for truth to choose between the
    checked and the unchecked look. *)
Definition cardTaken (isChecked : jsval) : bool := JsVal.ToBoolean isChecked.

(** The three slots. *)
Definition slots : list TimeSlot := [morning; lunch; dinner].

(** [handleVisibilityChange], with the value of
    [document.visibilityState] and the time of the call. *)
Definition handleVisibilityChange `{JSON} (visibilityState : string) (now : Z)
  : M unit :=
  if String.eqb visibilityState "visible" then loadData now else mret tt.

(** ** The calendar *)

(** The days of the month [m] (1 to 12) of the year [y]. *)
Definition daysInMonth (y m : Z) : Z :=
  match m with
  | 2 => if JsDate.DaysInYear y =? 366 then 29 else 28
  | 4 | 6 | 9 | 11 => 30
  | _ => 31
  end.

(** The time values a [Date] can hold. *)
Definition validTime (t : Z) : Prop :=
  -8640000000000000 <= t <= 8640000000000000.

(** The days before the month numbered [m] (0 to 11) in a year, leap
    ([l] = 1) or not ([l] = 0). *)
Definition daysBeforeMonth (m l : Z) : Z :=
  match m with
  | 0 => 0
  | 1 => 31
  | 2 => 59 + l
  | 3 => 90 + l
  | 4 => 120 + l
  | 5 => 151 + l
  | 6 => 181 + l
  | 7 => 212 + l
  | 8 => 243 + l
  | 9 => 273 + l
  | 10 => 304 + l
  | _ => 334 + l
  end.

Section CalendarFacts.

Import JsDate.

Lemma DayFromYear_succ (y : Z) : DayFromYear (y + 1) = DayFromYear y + DaysInYear y.
Proof.
  unfold DayFromYear, DaysInYear.
  repeat match goal with
         | |- context [?a =? ?b] => destruct (Z.eqb_spec a b)
         end; cbn [negb]; Z.div_mod_to_equations; lia.
Qed.

Lemma DaysInYear_cases (y : Z) : DaysInYear y = 365 \/ DaysInYear y = 366.
Proof.
  unfold DaysInYear.
  repeat match goal with
         | |- context [?a =? ?b] => destruct (Z.eqb_spec a b)
         end; cbn [negb]; auto.
Qed.

Lemma DayWithinYear_bounds (t : Z) :
  0 <= DayWithinYear t < DaysInYear (YearFromTime t).
Proof.
  unfold DayWithinYear. pose proof (YearFromTime_spec t) as H.
  rewrite DayFromYear_succ in H. lia.
Qed.

Lemma InLeapYear_cases (t : Z) :
  (InLeapYear t = 0 /\ DaysInYear (YearFromTime t) = 365)
  \/ (InLeapYear t = 1 /\ DaysInYear (YearFromTime t) = 366).
Proof.
  unfold InLeapYear. destruct (DaysInYear_cases (YearFromTime t)) as [H | H];
    rewrite H; cbn; auto.
Qed.

Lemma MonthFromTime_bounds (t : Z) : 0 <= MonthFromTime t <= 11.
Proof.
  unfold MonthFromTime.
  repeat match goal with
         | |- context [?a <? ?b] => destruct (Z.ltb_spec a b)
         end; lia.
Qed.

(** The day within the year is the days of the months before, and the
    day of the month. *)
Lemma DayWithinYear_month_date (t : Z) :
  DayWithinYear t
  = daysBeforeMonth (MonthFromTime t) (InLeapYear t) + DateFromTime t - 1.
Proof.
  unfold DateFromTime, MonthFromTime.
  repeat match goal with
         | |- context [?a <? ?b] => destruct (Z.ltb_spec a b)
         end; cbn [daysBeforeMonth]; lia.
Qed.

Lemma DateFromTime_bounds (t : Z) :
  1 <= DateFromTime t <= daysInMonth (YearFromTime t) (MonthFromTime t + 1).
Proof.
  pose proof (DayWithinYear_bounds t) as Hb.
  unfold daysInMonth.
  destruct (InLeapYear_cases t) as [[Hl Hy] | [Hl Hy]]; rewrite Hy in *;
    unfold DateFromTime, MonthFromTime; rewrite Hl;
    repeat match goal with
           | |- context [?a <? ?b] => destruct (Z.ltb_spec a b)
           end;
    repeat match goal with
           | |- context [match ?a + 1 with _ => _ end] =>
               let v := eval vm_compute in (a + 1) in change (a + 1) with v
           end; cbn; lia.
Qed.

End CalendarFacts.

(** ** The date string, read back *)

Section DateStringFacts.

Import JsDate.

Lemma length_append_string (a b : string) :
  String.length (a +:+ b) = (String.length a + String.length b)%nat.
Proof. induction a as [| c a IH]; simpl; [reflexivity | now f_equal]. Qed.

Lemma append_inj_length (a a' b b' : string) :
  String.length a = String.length a' ->
  a +:+ b = a' +:+ b' -> a = a' /\ b = b'.
Proof.
  revert a'. induction a as [| c a IH]; intros [| c' a'] Hlen Heq;
    cbn in *; try discriminate.
  - now split.
  - injection Heq as -> Heq. injection Hlen as Hlen.
    destruct (IH a' Hlen Heq) as [-> ->]. now split.
Qed.

Lemma pad_length (width : nat) (n : Z) : String.length (pad width n) = width.
Proof.
  revert n. induction width as [| w IH]; intros n; [reflexivity |].
  cbn [pad]. rewrite length_append_string, IH. cbn. lia.
Qed.

Lemma digit_inj (n n' : Z) : digit n = digit n' -> n mod 10 = n' mod 10.
Proof.
  unfold digit. intros H.
  assert (Hr : 0 <= n mod 10 < 10) by (apply Z.mod_pos_bound; lia).
  assert (Hr' : 0 <= n' mod 10 < 10) by (apply Z.mod_pos_bound; lia).
  apply (f_equal nat_of_ascii) in H.
  rewrite !nat_ascii_embedding in H by lia. lia.
Qed.

Lemma pad_inj (width : nat) (n n' : Z) :
  0 <= n < 10 ^ Z.of_nat width -> 0 <= n' < 10 ^ Z.of_nat width ->
  pad width n = pad width n' -> n = n'.
Proof.
  revert n n'. induction width as [| w IH]; intros n n' Hn Hn' Heq.
  - cbn in Hn, Hn'. lia.
  - rewrite Nat2Z.inj_succ, Z.pow_succ_r in Hn, Hn' by lia.
    cbn [pad] in Heq.
    apply append_inj_length in Heq as [Hhi Hlo]; [| now rewrite !pad_length].
    injection Hlo as Hlo. apply digit_inj in Hlo.
    assert (Hq : n / 10 = n' / 10).
    { apply IH; [| | exact Hhi]; Z.div_mod_to_equations; lia. }
    Z.div_mod_to_equations. lia.
Qed.

Lemma isoYear_inj (y y' : Z) :
  -999999 <= y <= 999999 -> -999999 <= y' <= 999999 ->
  isoYear y = isoYear y' -> y = y'.
Proof.
  intros Hy Hy'. unfold isoYear.
  destruct ((0 <=? y) && (y <=? 9999)) eqn:E;
    destruct ((0 <=? y') && (y' <=? 9999)) eqn:E'; intros Heq.
  - apply andb_prop in E as [E1 E2]. apply andb_prop in E' as [E1' E2'].
    apply (pad_inj 4); [cbn; lia | cbn; lia | exact Heq].
  - apply (f_equal String.length) in Heq.
    rewrite length_append_string, !pad_length in Heq.
    destruct (y' <? 0); cbn in Heq; lia.
  - apply (f_equal String.length) in Heq.
    rewrite length_append_string, !pad_length in Heq.
    destruct (y <? 0); cbn in Heq; lia.
  - apply append_inj_length in Heq as [Hsign Habs];
      [| destruct (y <? 0), (y' <? 0); reflexivity].
    apply (pad_inj 6) in Habs; [| cbn; lia | cbn; lia].
    destruct (Z.ltb_spec y 0), (Z.ltb_spec y' 0); try discriminate; lia.
Qed.

Lemma YearFromTime_range (t : Z) :
  validTime t -> -271821 <= YearFromTime t <= 275760.
Proof.
  unfold validTime. intros Ht.
  pose proof (YearFromTime_spec t) as [Hlo Hhi].
  assert (Hd : -100000000 <= Day t <= 100000000)
    by (unfold Day, msPerDay; Z.div_mod_to_equations; lia).
  split.
  - destruct (Z.le_gt_cases (-271821) (YearFromTime t)) as [H | H]; [exact H |].
    assert (DayFromYear (YearFromTime t + 1) <= DayFromYear (-271821)).
    { destruct (Z.eq_dec (YearFromTime t + 1) (-271821)) as [-> | Hne]; [lia |].
      apply Z.lt_le_incl, DayFromYear_lt. lia. }
    assert (DayFromYear (-271821) = -100000109) by reflexivity. lia.
  - destruct (Z.le_gt_cases (YearFromTime t) 275760) as [H | H]; [exact H |].
    assert (DayFromYear 275761 <= DayFromYear (YearFromTime t)).
    { destruct (Z.eq_dec 275761 (YearFromTime t)) as [<- | Hne]; [lia |].
      apply Z.lt_le_incl, DayFromYear_lt. lia. }
    assert (DayFromYear 275761 = 100000110) by reflexivity. lia.
Qed.

End DateStringFacts.

Section DateStringTheorems.

Import JsDate.

Lemma append_inj_length_r (a a' b b' : string) :
  String.length b = String.length b' ->
  a +:+ b = a' +:+ b' -> a = a' /\ b = b'.
Proof.
  intros Hlen Heq. apply append_inj_length; [| exact Heq].
  apply (f_equal String.length) in Heq.
  rewrite !length_append_string in Heq. lia.
Qed.

Lemma isoDate_fields (t t' : Z) :
  validTime t -> validTime t' -> isoDate t = isoDate t' ->
  YearFromTime t = YearFromTime t'
  /\ MonthFromTime t = MonthFromTime t'
  /\ DateFromTime t = DateFromTime t'.
Proof.
  intros Ht Ht' Heq. unfold isoDate in Heq.
  pose proof (YearFromTime_range t Ht) as Hy.
  pose proof (YearFromTime_range t' Ht') as Hy'.
  pose proof (MonthFromTime_bounds t) as Hm.
  pose proof (MonthFromTime_bounds t') as Hm'.
  pose proof (DateFromTime_bounds t) as Hd.
  pose proof (DateFromTime_bounds t') as Hd'.
  assert (Hdm : forall y m, daysInMonth y m <= 31).
  { intros y m. unfold daysInMonth.
    destruct m as [| [[[[| |] | [| |] | ] | [[| |] | [| |] | ] | ] | [[| |] | [| |] | ] | ] |];
      try destruct (DaysInYear y =? 366); lia. }
  pose proof (Hdm (YearFromTime t) (MonthFromTime t + 1)).
  pose proof (Hdm (YearFromTime t') (MonthFromTime t' + 1)).
  apply append_inj_length_r in Heq as [Hyear Hrest];
    [| now rewrite !length_append_string, !pad_length].
  apply isoYear_inj in Hyear; [| lia | lia].
  apply append_inj_length in Hrest as [_ Hrest]; [| reflexivity].
  apply append_inj_length in Hrest as [Hmonth Hdate]; [| now rewrite !pad_length].
  apply append_inj_length in Hdate as [_ Hdate]; [| reflexivity].
  apply (pad_inj 2) in Hmonth; [| cbn; lia | cbn; lia].
  apply (pad_inj 2) in Hdate; [| cbn; lia | cbn; lia].
  repeat split; lia.
Qed.

(** X1. Two times a [Date] can hold get the same string from
    [getTodayString] exactly when they fall on the same UTC day: the
    comparisons [storedData.date !== today] and [today !== lastDate]
    see every change of day, and nothing else. *)
Theorem getTodayString_same_iff_same_day (t t' : Z) :
  validTime t -> validTime t' ->
  (getTodayString t = getTodayString t' <-> Day t = Day t').
Proof.
  intros Ht Ht'. rewrite !getTodayString_isoDate. split.
  - intros Heq. destruct (isoDate_fields t t' Ht Ht' Heq) as (Hy & Hm & Hd).
    pose proof (DayWithinYear_month_date t) as Hw.
    pose proof (DayWithinYear_month_date t') as Hw'.
    assert (Hl : InLeapYear t = InLeapYear t') by (unfold InLeapYear; now rewrite Hy).
    unfold DayWithinYear in Hw, Hw'. rewrite Hy, Hm, Hd, Hl in Hw. lia.
  - apply isoDate_same_day.
Qed.

Lemma YearFromTime_four_digits (t : Z) :
  -62167219200000 <= t <= 253402300799999 -> 0 <= YearFromTime t <= 9999.
Proof.
  intros Ht. pose proof (YearFromTime_spec t) as [Hlo Hhi].
  assert (Hd : -719528 <= Day t <= 2932896)
    by (unfold Day, msPerDay; Z.div_mod_to_equations; lia).
  split.
  - destruct (Z.le_gt_cases 0 (YearFromTime t)) as [H | H]; [exact H |].
    assert (DayFromYear (YearFromTime t + 1) <= DayFromYear 0).
    { destruct (Z.eq_dec (YearFromTime t + 1) 0) as [-> | Hne]; [lia |].
      apply Z.lt_le_incl, DayFromYear_lt. lia. }
    assert (DayFromYear 0 = -719528) by reflexivity. lia.
  - destruct (Z.le_gt_cases (YearFromTime t) 9999) as [H | H]; [exact H |].
    assert (DayFromYear 10000 <= DayFromYear (YearFromTime t)).
    { destruct (Z.eq_dec 10000 (YearFromTime t)) as [<- | Hne]; [lia |].
      apply Z.lt_le_incl, DayFromYear_lt. lia. }
    assert (DayFromYear 10000 = 2932897) by reflexivity. lia.
Qed.

(** X2. From the year 0 to the year 9999 the string of [getTodayString]
    has the form YYYY-MM-DD: ten characters, the four digits of a year,
    the two of a month from 01 to 12 and the two of a day of that month,
    the day number of which is the UTC day of the time. *)
Theorem getTodayString_format (t : Z) :
  -62167219200000 <= t <= 253402300799999 ->
  exists y m d : Z,
    getTodayString t = pad 4 y +:+ "-" +:+ pad 2 m +:+ "-" +:+ pad 2 d
    /\ String.length (getTodayString t) = 10%nat
    /\ 0 <= y <= 9999
    /\ 1 <= m <= 12
    /\ 1 <= d <= daysInMonth y m
    /\ DayFromYear y
       + daysBeforeMonth (m - 1) (if DaysInYear y =? 366 then 1 else 0)
       + d - 1 = Day t.
Proof.
  intros Ht. pose proof (YearFromTime_four_digits t Ht) as Hy.
  exists (YearFromTime t), (MonthFromTime t + 1), (DateFromTime t).
  assert (Hs : getTodayString t
               = pad 4 (YearFromTime t) +:+ "-" +:+ pad 2 (MonthFromTime t + 1)
                   +:+ "-" +:+ pad 2 (DateFromTime t)).
  { rewrite getTodayString_isoDate. unfold isoDate, isoYear.
    destruct (Z.leb_spec 0 (YearFromTime t)); [| lia].
    destruct (Z.leb_spec (YearFromTime t) 9999); [| lia]. reflexivity. }
  split; [exact Hs |].
  split; [rewrite Hs; now rewrite !length_append_string, !pad_length |].
  split; [exact Hy |].
  pose proof (MonthFromTime_bounds t). split; [lia |].
  split; [apply DateFromTime_bounds |].
  pose proof (DayWithinYear_month_date t) as Hw.
  unfold DayWithinYear, InLeapYear in Hw.
  replace (MonthFromTime t + 1 - 1) with (MonthFromTime t) by lia. lia.
Qed.

End DateStringTheorems.

(** ** Toggling, twice and in either order *)

Section ToggleAlgebra.

Import JsVal.

Lemma obj_set_set props k v1 v2 :
  obj_set (obj_set props k v1) k v2 = obj_set props k v2.
Proof.
  induction props as [| [k' v'] rest IH]; simpl.
  - now rewrite String.eqb_refl.
  - destruct (String.eqb k' k) eqn:E; simpl.
    + now rewrite String.eqb_refl.
    + now rewrite E, IH.
Qed.

Lemma obj_set_same props k v :
  obj_get props k = Some v -> obj_set props k v = props.
Proof.
  induction props as [| [k' v'] rest IH]; simpl; [discriminate |].
  destruct (String.eqb_spec k' k) as [-> | Hne].
  - now intros [= ->].
  - intros Hg. now rewrite IH.
Qed.

Lemma obj_set_comm props k k' v v' a b :
  k <> k' -> obj_get props k = Some a -> obj_get props k' = Some b ->
  obj_set (obj_set props k v) k' v' = obj_set (obj_set props k' v') k v.
Proof.
  intros Hne. induction props as [| [k0 v0] rest IH]; simpl; [discriminate |].
  destruct (String.eqb_spec k0 k) as [Hk | Hk];
    destruct (String.eqb_spec k0 k') as [Hk' | Hk']; simpl.
  - congruence.
  - subst k0. intros _ Hb. destruct (String.eqb_spec k k'); [contradiction |].
    now rewrite String.eqb_refl.
  - subst k0. intros Ha _. rewrite String.eqb_refl.
    destruct (String.eqb_spec k' k); [congruence |]. reflexivity.
  - intros Ha Hb.
    destruct (String.eqb_spec k0 k'); [contradiction |].
    destruct (String.eqb_spec k0 k); [contradiction |].
    now rewrite (IH Ha Hb).
Qed.

Context {json : JSON}.

(** A same-day click on a slot that holds a boolean, with a write that
    goes through. *)
Lemma toggleCheck_boolean slot now w props b :
  setItem_throws (localStorage w) = false ->
  getTodayString now = lastDate (app w) ->
  checks (app w) = JObj props ->
  obj_get props (slot_key slot) = Some (JBool b) ->
  let newChecks := JObj (obj_set props (slot_key slot) (JBool (negb b))) in
  let record := JSON_stringify (mkStoredData (getTodayString now) newChecks) in
  toggleCheck slot now w =
  (Normal tt,
   mkWorld (mkAppState newChecks (lastDate (app w)) (isLoaded (app w)))
           (write_item record (localStorage w))
           (console w)
           (writes w ++ [(KEY, record)])).
Proof.
  intros Hst Hday Hc Hg newChecks record.
  rewrite (toggleCheck_same_day slot now w (JBool b)); try assumption.
  - cbn zeta. rewrite Hst. unfold toggled. rewrite Hc. reflexivity.
  - rewrite Hc. cbn. now rewrite Hg.
Qed.

(** X3. On one day, with a write that goes through and a state of three
    booleans, two clicks on the same card bring the checks back to what
    they were, and leave in the storage the record of those checks. *)
Theorem toggle_twice_restores (slot : TimeSlot) (now now' : Z) (w : World) :
  setItem_throws (localStorage w) = false ->
  getTodayString now = lastDate (app w) ->
  getTodayString now' = lastDate (app w) ->
  is_CheckState (checks (app w)) = true ->
  let w2 := after (toggleCheck slot now') (after (toggleCheck slot now) w) in
  checks (app w2) = checks (app w)
  /\ lastDate (app w2) = lastDate (app w)
  /\ snapshot w2
     = Some (JSON_stringify (mkStoredData (lastDate (app w)) (checks (app w)))).
Proof.
  intros Hst Hday Hday' Hc w2. subst w2. unfold after.
  destruct (is_CheckState_slot _ slot Hc) as (props & b & Hprops & Hg).
  rewrite (toggleCheck_boolean slot now w props b) by assumption.
  cbn zeta. cbn [snd].
  erewrite (toggleCheck_boolean slot now' _ _ (negb b));
    [| assumption | assumption | reflexivity | apply obj_get_set_eq].
  cbn zeta. simpl_world. rewrite snapshot_write_item.
  rewrite obj_set_set, negb_involutive, (obj_set_same _ _ _ Hg), Hprops, Hday'.
  repeat split; reflexivity.
Qed.

(** X4. On one day, with a write that goes through and a state of three
    booleans, clicks on two different cards give the same checks and the
    same stored record in either order. *)
Theorem toggles_commute (slot slot' : TimeSlot) (now now' : Z) (w : World) :
  setItem_throws (localStorage w) = false ->
  getTodayString now = lastDate (app w) ->
  getTodayString now' = lastDate (app w) ->
  is_CheckState (checks (app w)) = true ->
  slot <> slot' ->
  let w12 := after (toggleCheck slot' now') (after (toggleCheck slot now) w) in
  let w21 := after (toggleCheck slot now') (after (toggleCheck slot' now) w) in
  checks (app w12) = checks (app w21)
  /\ snapshot w12 = snapshot w21.
Proof.
  intros Hst Hday Hday' Hc Hne w12 w21. subst w12 w21. unfold after.
  destruct (is_CheckState_slot _ slot Hc) as (props & b & Hprops & Hg).
  destruct (is_CheckState_slot _ slot' Hc) as (props' & b' & Hprops' & Hg').
  rewrite Hprops in Hprops'. injection Hprops' as <-.
  assert (Hk : slot_key slot <> slot_key slot')
    by (intros Hk; now apply slot_key_inj in Hk).
  rewrite (toggleCheck_boolean slot now w props b) by assumption.
  rewrite (toggleCheck_boolean slot' now w props b') by assumption.
  cbn zeta. cbn [snd].
  erewrite (toggleCheck_boolean slot' now' _ _ b');
    [| assumption | assumption | reflexivity
     | now rewrite obj_get_set_ne].
  erewrite (toggleCheck_boolean slot now' _ _ b);
    [| assumption | assumption | reflexivity
     | rewrite obj_get_set_ne; [assumption | congruence]].
  cbn zeta. simpl_world. rewrite !snapshot_write_item.
  rewrite (obj_set_comm props _ _ _ _ _ _ Hk Hg Hg').
  split; reflexivity.
Qed.

(** X5. A click on another day than the current date is dropped, and the
    same click made again that day counts: after the two, with a write
    that goes through, the card clicked is the only one checked. *)
Theorem second_click_after_rollover (slot : TimeSlot) (now now' : Z) (w : World) :
  setItem_throws (localStorage w) = false ->
  getTodayString now <> lastDate (app w) ->
  getTodayString now' = getTodayString now ->
  let w1 := after (toggleCheck slot now) w in
  let w2 := after (toggleCheck slot now') w1 in
  checks (app w1) = allFalse
  /\ checks (app w2)
     = match slot with
       | morning => mkCheckState true false false
       | lunch => mkCheckState false true false
       | dinner => mkCheckState false false true
       end
  /\ snapshot w2
     = Some (JSON_stringify (mkStoredData (getTodayString now) (checks (app w2)))).
Proof.
  intros Hst Hne Hday w1 w2. subst w2 w1. unfold after.
  rewrite toggleCheck_stale by assumption. rewrite Hst. cbn [snd].
  split; [reflexivity |].
  rewrite (toggleCheck_boolean slot now' _
             [("morning", JBool false); ("lunch", JBool false); ("dinner", JBool false)]
             false);
    [| assumption | now rewrite Hday | reflexivity | now destruct slot].
  cbn zeta. simpl_world. rewrite snapshot_write_item, Hday.
  destruct slot; split; reflexivity.
Qed.

Lemma toggleCheck_leaves (slot : TimeSlot) (now : Z) (w : World) :
  let w1 := after (toggleCheck slot now) w in
  lastDate (app w1) = getTodayString now
  /\ (fst (toggleCheck slot now w) = Normal tt ->
      snapshot w1
      = Some (JSON_stringify (mkStoredData (lastDate (app w1)) (checks (app w1))))).
Proof.
  intros w1. subst w1. unfold after.
  destruct (toggle_cases slot now w) as [Hne | old He Hg | e He Hg].
  - rewrite toggleCheck_stale by assumption.
    destruct (setItem_throws (localStorage w)); simpl_world;
      (split; [reflexivity |]); [discriminate |].
    intros _. now rewrite snapshot_write_item.
  - rewrite (toggleCheck_same_day slot now w old) by assumption. cbn zeta.
    destruct (setItem_throws (localStorage w)); simpl_world;
      (split; [now rewrite He |]); [discriminate |].
    intros _. now rewrite snapshot_write_item, He.
  - rewrite (toggleCheck_no_properties slot now w e) by assumption.
    simpl_world. split; [now rewrite He | discriminate].
Qed.

(** X6. After any call of [toggleCheck], however it ends, the current
    date is the date of the call; and when it returns, the item in the
    storage is the record of the state it leaves: its current date and
    its checks. *)
Theorem toggle_store_agrees (slot : TimeSlot) (now : Z) (w : World) :
  let w1 := after (toggleCheck slot now) w in
  lastDate (app w1) = getTodayString now
  /\ (fst (toggleCheck slot now w) = Normal tt ->
      snapshot w1
      = Some (JSON_stringify (mkStoredData (lastDate (app w1)) (checks (app w1))))).
Proof. exact (toggleCheck_leaves slot now w). Qed.

(** X7. What a click stored comes back on reload: when [toggleCheck]
    has returned and [JSON] reads back the record it wrote, a component
    mounted later that day over the same storage starts with the checks
    and the current date the click left, and does not touch the
    storage. *)
Theorem reload_restores (slot : TimeSlot) (now now' : Z) (w : World) :
  getItem_throws (localStorage w) = false ->
  fst (toggleCheck slot now w) = Normal tt ->
  let w1 := after (toggleCheck slot now) w in
  let record := mkStoredData (lastDate (app w1)) (checks (app w1)) in
  JSON_parse (JSON_stringify record) = Some record ->
  getTodayString now' = getTodayString now ->
  app (mount now' (localStorage w1))
  = mkAppState (checks (app w1)) (lastDate (app w1)) true
  /\ localStorage (mount now' (localStorage w1)) = localStorage w1
  /\ writes (mount now' (localStorage w1)) = [].
Proof.
  intros Hg Hret w1 record Hjson Hday.
  destruct (toggleCheck_leaves slot now w) as [Hdate Hsnap].
  specialize (Hsnap Hret). fold w1 in Hdate, Hsnap.
  destruct (toggleCheck_flags slot now w) as [Hg1 _]. fold w1 in Hg1.
  rewrite Hg in Hg1.
  unfold mount, after.
  rewrite (loadData_same_day now' _ (JSON_stringify record) record (checks (app w1)));
    try assumption.
  - simpl_world. rewrite Hday, Hdate. repeat split; reflexivity.
  - subst record. cbn. now rewrite Hdate, Hday.
  - reflexivity.
Qed.

End ToggleAlgebra.

(** ** What the component never does *)

Section Never.

Context {json : JSON}.

(** A handler leaves the storage as it was, or with the one item
    written. *)
Lemma handle_storage (ev : event) (w : World) :
  localStorage (after (handle ev) w) = localStorage w
  \/ exists v, localStorage (after (handle ev) w) = write_item v (localStorage w).
Proof.
  unfold after. destruct ev as [now | slot now]; cbn [handle].
  - destruct (getItem_throws (localStorage w)) eqn:Hg.
    { rewrite loadData_read_fails by assumption. now left. }
    destruct (load_cases now w) as [Ht | s Hs Ht Hp | s v e Hs Hp Hd | s v c Hs Hp Hd Hc
                                   | s v d Hs Hp Hd Hne].
    + rewrite loadData_no_snapshot by assumption. now left.
    + rewrite (loadData_not_json now w s) by assumption. now left.
    + rewrite (loadData_no_properties now w s v e) by assumption. now left.
    + rewrite (loadData_same_day now w s v c) by assumption. now left.
    + rewrite (loadData_stale now w s v d) by assumption.
      destruct (setItem_throws (localStorage w)); [now left | right; eauto].
  - destruct (toggle_cases slot now w) as [Hne | old He Hg | e He Hg].
    + rewrite toggleCheck_stale by assumption.
      destruct (setItem_throws (localStorage w)); [now left | right; eauto].
    + rewrite (toggleCheck_same_day slot now w old) by assumption. cbn zeta.
      destruct (setItem_throws (localStorage w)); [now left | right; eauto].
    + rewrite (toggleCheck_no_properties slot now w e) by assumption. now left.
Qed.

Lemma run_snoc (evs : list event) (ev : event) (w : World) :
  run (evs ++ [ev]) w = after (handle ev) (run evs w).
Proof. unfold run. now rewrite fold_left_app. Qed.

(** X8. Whatever happens to the component, in whatever order, it never
    touches an item of the storage under another key than its own, and
    never removes its own item. *)
Theorem run_frame (evs : list event) (w : World) :
  (forall k : string,
      k <> KEY ->
      items (localStorage (run evs w)) !! k = items (localStorage w) !! k)
  /\ (is_Some (snapshot w) -> is_Some (snapshot (run evs w))).
Proof.
  induction evs as [| ev evs [IHk IHs]] using rev_ind; [now split |].
  rewrite run_snoc.
  destruct (handle_storage ev (run evs w)) as [Heq | [v Heq]].
  - unfold snapshot in *. rewrite Heq. now split.
  - unfold snapshot in *. rewrite Heq. unfold write_item. cbn [items]. split.
    + intros k Hk. rewrite lookup_insert_ne by congruence. now apply IHk.
    + intros _. rewrite lookup_insert_eq. eauto.
Qed.

(** X9. When [getItem] fails the component never shows: in every world
    it can be in, [isLoaded] is still false and the page is empty, the
    checks are those of the first render, nothing was written and
    nothing logged. *)
Theorem unreadable_storage_never_loads (w : World) :
  reachable w ->
  getItem_throws (localStorage w) = true ->
  isLoaded (app w) = false
  /\ render (app w) = Normal None
  /\ checks (app w) = allFalse
  /\ writes w = []
  /\ console w = [].
Proof.
  induction 1 as [now sto | now w Hr IH | slot now w Hr IH Hl]; intros Hg.
  - repeat split; reflexivity.
  - destruct (loadData_flags now w) as [Hf _]. rewrite Hg in Hf. symmetry in Hf.
    unfold after in *. rewrite loadData_read_fails in * by assumption.
    now apply IH.
  - destruct (toggleCheck_flags slot now w) as [Hf _]. rewrite Hg in Hf.
    symmetry in Hf. destruct (IH Hf) as [Hl' _]. congruence.
Qed.

(** X10. When [setItem] fails, a same-day click on a state of three
    booleans ends in the storage's exception after the state was
    updated: the card has changed in memory, the storage has not, and
    nothing is logged. *)
Theorem failed_write_keeps_memory (slot : TimeSlot) (now : Z) (w : World) :
  setItem_throws (localStorage w) = true ->
  getTodayString now = lastDate (app w) ->
  is_CheckState (checks (app w)) = true ->
  let w1 := after (toggleCheck slot now) w in
  fst (toggleCheck slot now w) = Throw DOMException
  /\ slot_bool (checks (app w1)) slot = negb <$> slot_bool (checks (app w)) slot
  /\ is_Some (slot_bool (checks (app w)) slot)
  /\ localStorage w1 = localStorage w
  /\ writes w1 = writes w
  /\ console w1 = console w.
Proof.
  intros Hst Hday Hc w1. subst w1. unfold after.
  destruct (is_CheckState_slot _ slot Hc) as (props & b & Hprops & Hg).
  rewrite (toggleCheck_same_day slot now w (JBool b));
    [| assumption | rewrite Hprops; cbn; now rewrite Hg].
  cbn zeta. rewrite Hst. simpl_world. rewrite Hprops.
  unfold toggled. cbn [JsVal.own_props slot_bool JsVal.ToBoolean].
  rewrite obj_get_set_eq, Hg. cbn.
  repeat split; try reflexivity. now exists b.
Qed.

(** A stored value that is neither null nor an object dated today. *)
Definition wrong_shape (today : string) (v : jsval) : Prop :=
  match v with
  | JUndefined | JNull => False
  | JObj props => JsVal.obj_get props "date" <> Some (JStr today)
  | JBool _ | JNum _ | JStr _ | JArr _ => True
  end.

(** X11. With a working storage, any stored JSON value other than null
    that is not an object dated today (a number, a string, a boolean, an
    array, an object without [date] or with another one) is replaced on
    load by the record of today with all checks false. *)
Theorem wrong_shape_overwritten (now : Z) (w : World) (s : string) (v : jsval) :
  storage_works (localStorage w) ->
  snapshot w = Some s ->
  JSON_parse s = Some v ->
  wrong_shape (getTodayString now) v ->
  let w1 := after (loadData now) w in
  let fresh := JSON_stringify (mkStoredData (getTodayString now) allFalse) in
  fst (loadData now w) = Normal tt
  /\ checks (app w1) = allFalse
  /\ lastDate (app w1) = getTodayString now
  /\ snapshot w1 = Some fresh
  /\ writes w1 = (writes w ++ [(KEY, fresh)])%list
  /\ console w1 = console w.
Proof.
  intros [Hg Hst] Hs Hp Hshape w1 fresh. subst w1 fresh. unfold after.
  assert (Hd : exists d, JsVal.Get v "date" = Normal d
                         /\ d <> JStr (getTodayString now)).
  { destruct v as [| | b | x | str | elems | props]; cbn in *;
      try contradiction; try (eexists; split; [reflexivity | discriminate]).
    destruct (JsVal.obj_get props "date") as [d |] eqn:E; cbn.
    - exists d. split; [reflexivity | congruence].
    - eexists; split; [reflexivity | discriminate]. }
  destruct Hd as (d & Hd & Hne).
  rewrite (loadData_stale now w s v d) by assumption.
  rewrite Hst. simpl_world. rewrite snapshot_write_item.
  repeat split; reflexivity.
Qed.

End Never.

(** ** What is shown *)

(** The objects with the three slots holding [m], [l] and [d], in the
    six orders their keys can have. *)
Definition checkStates (m l d : bool) : list jsval :=
  let M := ("morning", JBool m) in
  let L := ("lunch", JBool l) in
  let D := ("dinner", JBool d) in
  [JObj [M; L; D]; JObj [M; D; L]; JObj [L; M; D];
   JObj [L; D; M]; JObj [D; M; L]; JObj [D; L; M]].

(** How many of the three cards show as taken. *)
Definition takenCount (c : jsval) : nat :=
  length (List.filter
            (fun slot => bool_decide (slot_bool c slot = Some true)) slots).

Section Shown.

Lemma is_CheckState_orders (c : jsval) :
  is_CheckState c = true -> exists m l d, In c (checkStates m l d).
Proof.
  intros H. destruct c as [| | | | | | props]; try discriminate.
  destruct props as [| [k1 v1] [| [k2 v2] [| [k3 v3] [|]]]]; try discriminate.
  unfold is_CheckState, has_bool_slot in H.
  cbn [length Nat.eqb andb slot_key JsVal.obj_get] in H.
  repeat match type of H with
         | context [String.eqb ?a ?b] =>
             destruct (String.eqb_spec a b);
             [subst; cbn [String.eqb Ascii.eqb Bool.eqb andb] in H |]
         end;
    try discriminate;
    repeat match type of H with
           | context [match ?v with _ => _ end] => destruct v; try discriminate
           end;
    eexists _, _, _; cbn;
    first [ left; reflexivity
          | right; left; reflexivity
          | right; right; left; reflexivity
          | right; right; right; left; reflexivity
          | right; right; right; right; left; reflexivity
          | right; right; right; right; right; left; reflexivity ].
Qed.

Ltac each_order H :=
  cbn [checkStates In] in H;
  repeat destruct H as [H | H]; try contradiction; subst.

(** X12. Once loaded, a state of three booleans renders: the count
    shown is the number of cards shown as taken, at most three; each
    card is shown as taken exactly when its slot holds true; the bar has
    the width of that count; and the footer of the goal reached is
    shown exactly when all three cards are. *)
Theorem render_three_booleans (s : AppState) :
  isLoaded s = true ->
  is_CheckState (checks s) = true ->
  exists view : View,
    render s = Normal (Some view)
    /\ shownCount view = takenCount (checks s)
    /\ (shownCount view <= 3)%nat
    /\ barWidth view = progress (shownCount view)
    /\ cardTaken (morningChecked view)
       = bool_decide (slot_bool (checks s) morning = Some true)
    /\ cardTaken (lunchChecked view)
       = bool_decide (slot_bool (checks s) lunch = Some true)
    /\ cardTaken (dinnerChecked view)
       = bool_decide (slot_bool (checks s) dinner = Some true)
    /\ (goalReached view = true <->
        cardTaken (morningChecked view) = true
        /\ cardTaken (lunchChecked view) = true
        /\ cardTaken (dinnerChecked view) = true).
Proof.
  destruct s as [c date loaded]. cbn [isLoaded checks]. intros -> Hc.
  destruct (is_CheckState_orders c Hc) as (m & l & d & Hin).
  each_order Hin; destruct m, l, d; eexists; (split; [reflexivity |]);
    cbn; repeat split; try reflexivity; try lia; try discriminate;
    intros; intuition discriminate.
Qed.

(** X13. For a count of at most three, the width of the bar lies
    between 0 and 100, is 100 exactly at three, and grows with the
    count. *)
Theorem progress_bounds (n : nat) :
  (n <= 3)%nat ->
  PrimFloat.leb 0%float (progress n) = true
  /\ PrimFloat.leb (progress n) 100%float = true
  /\ (PrimFloat.eqb (progress n) 100%float = true <-> n = 3%nat)
  /\ (forall n' : nat, (n < n' <= 3)%nat ->
        PrimFloat.ltb (progress n) (progress n') = true).
Proof.
  intros Hn.
  destruct n as [| [| [| [| n]]]]; try lia;
    (split; [reflexivity |]); (split; [reflexivity |]);
    (split; [split; [try discriminate; reflexivity | try lia; reflexivity] |]);
    intros n' Hn'; destruct n' as [| [| [| [| n']]]]; try lia; reflexivity.
Qed.

Lemma completedCount_toggled (c : jsval) (slot : TimeSlot) (m l d : bool) :
  In c (checkStates m l d) ->
  exists (n : nat) (b : bool),
    completedCount c = Normal n
    /\ slot_bool c slot = Some b
    /\ JsVal.Get c (slot_key slot) = Normal (JBool b)
    /\ completedCount (toggled c slot (JBool b))
       = Normal (if b then n - 1 else n + 1)%nat
    /\ (b = true -> (1 <= n)%nat)
    /\ (b = false -> (n <= 2)%nat).
Proof.
  intros Hin.
  each_order Hin; destruct slot, m, l, d; eexists _, _;
    (split; [reflexivity |]); (split; [reflexivity |]);
    (split; [reflexivity |]); (split; [reflexivity |]);
    split; intros; try discriminate; cbn; lia.
Qed.

Context {json : JSON}.

(** X14. A same-day click on a state of three booleans changes the count
    of the checks taken by exactly one: one less when the card was
    taken, one more when it was not, whether the write goes through or
    not. *)
Theorem toggle_changes_count_by_one (slot : TimeSlot) (now : Z) (w : World) :
  getTodayString now = lastDate (app w) ->
  is_CheckState (checks (app w)) = true ->
  let w1 := after (toggleCheck slot now) w in
  exists (n : nat) (b : bool),
    completedCount (checks (app w)) = Normal n
    /\ slot_bool (checks (app w)) slot = Some b
    /\ completedCount (checks (app w1))
       = Normal (if b then n - 1 else n + 1)%nat
    /\ (b = true -> (1 <= n)%nat)
    /\ (b = false -> (n <= 2)%nat).
Proof.
  intros Hday Hc w1. subst w1. unfold after.
  destruct (is_CheckState_orders _ Hc) as (m & l & d & Hin).
  destruct (completedCount_toggled _ slot m l d Hin)
    as (n & b & Hn & Hb & Hg & Hn' & Hlo & Hhi).
  exists n, b.
  rewrite (toggleCheck_same_day slot now w (JBool b)) by assumption.
  cbn zeta. destruct (setItem_throws (localStorage w)); simpl_world;
    repeat split; assumption.
Qed.

(** X15. A stored record of today whose [checks] are missing or null
    loads without an error, and the render that follows throws a
    TypeError at [Object.values(checks)]; the storage is left as it is,
    so every later load that day ends in the same state. *)
Theorem render_throws_without_checks (now : Z) (w : World) (s : string)
    (props : list (string * jsval)) :
  getItem_throws (localStorage w) = false ->
  snapshot w = Some s ->
  JSON_parse s = Some (JObj props) ->
  JsVal.obj_get props "date" = Some (JStr (getTodayString now)) ->
  JsVal.obj_get props "checks" = None \/ JsVal.obj_get props "checks" = Some JNull ->
  let w1 := after (loadData now) w in
  fst (loadData now w) = Normal tt
  /\ isLoaded (app w1) = true
  /\ render (app w1) = Throw TypeError
  /\ localStorage w1 = localStorage w
  /\ (forall now' : Z,
        getTodayString now' = getTodayString now ->
        loadData now' w1 = (Normal tt, w1)).
Proof.
  intros Hg Hs Hp Hd Hc w1. subst w1. unfold after.
  rewrite (loadData_same_day_record now w s props _ Hg Hs Hp Hd eq_refl).
  simpl_world.
  split; [reflexivity |]. split; [reflexivity |].
  split; [destruct Hc as [-> | ->]; reflexivity |].
  split; [reflexivity |].
  intros now' Hday.
  rewrite (loadData_same_day_record now' _ s props
             (default JUndefined (JsVal.obj_get props "checks")));
    try assumption; try reflexivity.
  - simpl_world. now rewrite Hday.
  - now rewrite Hday.
Qed.

End Shown.

(** ** From a clean start *)

Section CleanStart.

Context {json : JSON}.

(** [JSON] reads back the records of the date [date]: parsing what
    [JSON.stringify] made of a record with three booleans gives the
    record. *)
Definition reads_back (date : string) : Prop :=
  forall m l d : bool,
    JSON_parse (JSON_stringify (mkStoredData date (mkCheckState m l d)))
    = Some (mkStoredData date (mkCheckState m l d)).

(** The checks are an object literal of three booleans, and the item,
    if there is one, is a record the component wrote and [JSON] reads
    back. *)
Definition tidy (w : World) : Prop :=
  (exists m l d, checks (app w) = mkCheckState m l d)
  /\ (snapshot w = None
      \/ exists date m l d,
           reads_back date
           /\ snapshot w = Some (JSON_stringify (mkStoredData date (mkCheckState m l d)))).

Lemma tidy_reset (today : string) (w w' : World) :
  reads_back today ->
  tidy w ->
  checks (app w') = allFalse ->
  (localStorage w' = localStorage w
   \/ localStorage w'
      = write_item (JSON_stringify (mkStoredData today allFalse)) (localStorage w)) ->
  tidy w'.
Proof.
  intros Hrb [_ Hitem] Hc Hsto. split; [rewrite Hc; now exists false, false, false |].
  destruct Hsto as [Heq | Heq]; unfold snapshot in *; rewrite Heq.
  - exact Hitem.
  - right. exists today, false, false, false. split; [exact Hrb |].
    unfold write_item. cbn [items]. now rewrite lookup_insert_eq.
Qed.

Lemma tidy_handle (ev : event) (w : World) :
  reads_back (getTodayString (event_time ev)) ->
  tidy w -> tidy (after (handle ev) w).
Proof.
  intros Hrb Htidy. unfold after.
  destruct ev as [now | slot now]; cbn [handle event_time] in *.
  - destruct (getItem_throws (localStorage w)) eqn:Hg.
    { now rewrite loadData_read_fails. }
    destruct (load_cases now w) as [Ht | s Hs Ht Hp | s v e Hs Hp Hd | s v c Hs Hp Hd Hc
                                   | s v d Hs Hp Hd Hne].
    + rewrite loadData_no_snapshot by assumption. exact Htidy.
    + rewrite (loadData_not_json now w s) by assumption. exact Htidy.
    + rewrite (loadData_no_properties now w s v e) by assumption. exact Htidy.
    + rewrite (loadData_same_day now w s v c) by assumption.
      destruct Htidy as [_ Hitem]. split; [| exact Hitem].
      destruct Hitem as [Hnone | (date & m & l & d & Hrb' & Hsome)];
        [unfold snapshot in *; congruence |].
      unfold snapshot in *. rewrite Hs in Hsome. injection Hsome as ->.
      rewrite (Hrb' m l d) in Hp. injection Hp as <-.
      cbn in Hc. injection Hc as <-. now exists m, l, d.
    + rewrite (loadData_stale now w s v d) by assumption.
      destruct (setItem_throws (localStorage w));
        (eapply tidy_reset; [exact Hrb | exact Htidy | reflexivity |]);
        [now left | now right].
  - destruct (toggle_cases slot now w) as [Hne | old He Hg | e He Hg].
    + rewrite toggleCheck_stale by assumption.
      destruct (setItem_throws (localStorage w));
        (eapply tidy_reset; [exact Hrb | exact Htidy | reflexivity |]);
        [now left | now right].
    + rewrite (toggleCheck_same_day slot now w old) by assumption. cbn zeta.
      destruct Htidy as [(m & l & d & Hc) Hitem]. rewrite Hc in *.
      assert (Hnew : exists m' l' d',
                 toggled (mkCheckState m l d) slot old = mkCheckState m' l' d').
      { destruct slot; cbn in Hg; injection Hg as <-; cbn; eauto. }
      destruct Hnew as (m' & l' & d' & Hnew). rewrite Hnew.
      destruct (setItem_throws (localStorage w)); (split; [now exists m', l', d' |]).
      * exact Hitem.
      * right. exists (getTodayString now), m', l', d'. split; [exact Hrb |].
        apply snapshot_write_item.
    + rewrite (toggleCheck_no_properties slot now w e) by assumption. exact Htidy.
Qed.

Lemma tidy_run (evs : list event) (w : World) :
  Forall (fun ev => reads_back (getTodayString (event_time ev))) evs ->
  tidy w -> tidy (run evs w).
Proof.
  intros Hall. revert w. induction Hall as [| ev evs Hev _ IH]; intros w Hw.
  - exact Hw.
  - change (tidy (run evs (after (handle ev) w))). apply IH.
    now apply tidy_handle.
Qed.

Lemma tidy_mount (now : Z) (sto : Storage) :
  items sto !! KEY = None -> tidy (mount now sto).
Proof.
  intros Hnone. unfold mount, after.
  set (w0 := mkWorld (initialState now) sto [] []).
  assert (Hw0 : tidy w0)
    by (split; [now exists false, false, false | now left]).
  destruct (getItem_throws sto) eqn:Hg.
  - now rewrite loadData_read_fails.
  - rewrite loadData_no_snapshot; [exact Hw0 | exact Hg |].
    unfold snapshot. cbn. now rewrite Hnone.
Qed.

(** X16. Mounted over a storage without the item, and as long as [JSON]
    reads back the records of the days on which something happens, the
    component keeps its checks an object of exactly the three booleans,
    whatever happens to it and whether the storage works or not: every
    render goes through, and the item, once there, is a record with
    three booleans. *)
Theorem clean_start_keeps_three_booleans (now : Z) (sto : Storage)
    (evs : list event) :
  items sto !! KEY = None ->
  Forall (fun ev => reads_back (getTodayString (event_time ev))) evs ->
  let w := run evs (mount now sto) in
  (exists m l d, checks (app w) = mkCheckState m l d)
  /\ is_CheckState (checks (app w)) = true
  /\ (exists v, render (app w) = Normal v)
  /\ (snapshot w = None
      \/ exists date m l d,
           snapshot w = Some (JSON_stringify (mkStoredData date (mkCheckState m l d)))).
Proof.
  intros Hnone Hall w.
  assert (Hw : tidy w) by (apply tidy_run; [exact Hall | now apply tidy_mount]).
  destruct Hw as [(m & l & d & Hc) Hitem].
  split; [now exists m, l, d |].
  split; [now rewrite Hc |].
  split.
  - unfold render. rewrite Hc. destruct (isLoaded (app w)); cbn; eauto.
  - destruct Hitem as [Hn | (date & m' & l' & d' & _ & Hs)]; [now left |].
    right. now exists date, m', l', d'.
Qed.

End CleanStart.

(** ** The further properties at concrete inputs *)

Lemma getTodayString_same_iff_same_day_witness :
  validTime may1_noon /\ validTime may1_evening
  /\ getTodayString may1_noon = getTodayString may1_evening.
Proof.
  assert (Hv : validTime may1_noon) by (unfold validTime, may1_noon; lia).
  assert (Hv' : validTime may1_evening) by (unfold validTime, may1_evening; lia).
  split; [exact Hv |]. split; [exact Hv' |].
  apply (getTodayString_same_iff_same_day may1_noon may1_evening Hv Hv').
  reflexivity.
Defined.

Lemma getTodayString_format_witness :
  -62167219200000 <= may1_noon <= 253402300799999
  /\ String.length (getTodayString may1_noon) = 10%nat.
Proof.
  assert (Hr : -62167219200000 <= may1_noon <= 253402300799999)
    by (unfold may1_noon; lia).
  split; [exact Hr |].
  destruct (getTodayString_format may1_noon Hr) as (y & m & d & _ & Hlen & _).
  exact Hlen.
Defined.

Lemma toggle_twice_restores_witness :
  let w := mount may1_noon (working (Some morning_done)) in
  let w2 := after (toggleCheck lunch may1_evening)
                  (after (toggleCheck lunch may1_noon) w) in
  setItem_throws (localStorage w) = false
  /\ is_CheckState (checks (app w)) = true
  /\ checks (app w2) = checks (app w)
  /\ snapshot w2 = Some morning_done.
Proof.
  intros w w2.
  destruct (toggle_twice_restores (json := RefJSON.ref_json) lunch may1_noon
              may1_evening w eq_refl eq_refl eq_refl eq_refl)
    as (Hc & _ & Hs).
  split; [reflexivity |]. split; [reflexivity |]. split; [exact Hc | exact Hs].
Defined.

Lemma toggles_commute_witness :
  let w := mount may1_noon (working (Some morning_done)) in
  setItem_throws (localStorage w) = false
  /\ is_CheckState (checks (app w)) = true
  /\ lunch <> dinner
  /\ checks (app (after (toggleCheck dinner may1_evening)
                        (after (toggleCheck lunch may1_noon) w)))
     = checks (app (after (toggleCheck lunch may1_evening)
                          (after (toggleCheck dinner may1_noon) w))).
Proof.
  intros w.
  assert (Hne : lunch <> dinner) by discriminate.
  destruct (toggles_commute (json := RefJSON.ref_json) lunch dinner may1_noon
              may1_evening w eq_refl eq_refl eq_refl eq_refl Hne)
    as (Hc & _).
  split; [reflexivity |]. split; [reflexivity |]. split; [exact Hne | exact Hc].
Defined.

Lemma second_click_after_rollover_witness :
  let w := mount may1_noon (working (Some full_day)) in
  let w2 := after (toggleCheck morning may2_noon)
                  (after (toggleCheck morning may2_noon) w) in
  setItem_throws (localStorage w) = false
  /\ getTodayString may2_noon <> lastDate (app w)
  /\ checks (app w2) = mkCheckState true false false.
Proof.
  intros w w2.
  assert (Hne : getTodayString may2_noon <> lastDate (app w))
    by (vm_compute; intros H; discriminate H).
  destruct (second_click_after_rollover (json := RefJSON.ref_json) morning
              may2_noon may2_noon w eq_refl Hne eq_refl)
    as (_ & Hc & _).
  split; [reflexivity |]. split; [exact Hne | exact Hc].
Defined.

Lemma reload_restores_witness :
  let w := mount may1_noon (working (Some morning_done)) in
  let w1 := after (toggleCheck lunch may1_noon) w in
  getItem_throws (localStorage w) = false
  /\ fst (toggleCheck lunch may1_noon w) = Normal tt
  /\ app (mount may1_evening (localStorage w1))
     = mkAppState (mkCheckState true true false) "2024-05-01" true.
Proof.
  intros w w1.
  destruct (reload_restores (json := RefJSON.ref_json) lunch may1_noon
              may1_evening w eq_refl eq_refl eq_refl eq_refl)
    as (Happ & _).
  split; [reflexivity |]. split; [reflexivity | exact Happ].
Defined.

Lemma unreadable_storage_never_loads_witness :
  let w := mount may1_noon (mkStorage {[ KEY := full_day ]} true false) in
  reachable w
  /\ getItem_throws (localStorage w) = true
  /\ isLoaded (app w) = false
  /\ render (app w) = Normal None.
Proof.
  intros w.
  assert (Hr : reachable w) by (apply reachable_visible, reachable_first_render).
  destruct (unreadable_storage_never_loads (json := RefJSON.ref_json) w Hr eq_refl)
    as (Hl & Hrender & _).
  split; [exact Hr |]. split; [reflexivity |]. split; [exact Hl | exact Hrender].
Defined.

Lemma failed_write_keeps_memory_witness :
  let w := mount may1_noon (mkStorage {[ KEY := morning_done ]} false true) in
  let w1 := after (toggleCheck lunch may1_evening) w in
  setItem_throws (localStorage w) = true
  /\ is_CheckState (checks (app w)) = true
  /\ fst (toggleCheck lunch may1_evening w) = Throw DOMException
  /\ slot_bool (checks (app w1)) lunch = negb <$> slot_bool (checks (app w)) lunch
  /\ localStorage w1 = localStorage w.
Proof.
  intros w w1.
  destruct (failed_write_keeps_memory (json := RefJSON.ref_json) lunch
              may1_evening w eq_refl eq_refl eq_refl)
    as (Ht & Hb & _ & Hs & _).
  split; [reflexivity |]. split; [reflexivity |]. split; [exact Ht |].
  split; [exact Hb | exact Hs].
Defined.

Lemma wrong_shape_overwritten_witness :
  let w := mkWorld (initialState may1_noon) (working (Some "[]")) [] [] in
  let w1 := after (loadData may1_noon) w in
  storage_works (localStorage w)
  /\ RefJSON.parse "[]" = Some (JArr [])
  /\ wrong_shape (getTodayString may1_noon) (JArr [])
  /\ checks (app w1) = allFalse
  /\ snapshot w1
     = Some (RefJSON.text
               "{'date':'2024-05-01','checks':{'morning':false,'lunch':false,'dinner':false}}").
Proof.
  intros w w1.
  assert (Hw : storage_works (localStorage w)) by (split; reflexivity).
  destruct (wrong_shape_overwritten (json := RefJSON.ref_json) may1_noon w "[]"
              (JArr []) Hw eq_refl eq_refl I)
    as (_ & Hc & _ & Hs & _).
  split; [exact Hw |]. split; [reflexivity |]. split; [exact I |].
  split; [exact Hc | exact Hs].
Defined.

Lemma render_three_booleans_witness :
  let s := mkAppState (mkCheckState true false true) "2024-05-01" true in
  isLoaded s = true
  /\ is_CheckState (checks s) = true
  /\ exists view, render s = Normal (Some view) /\ shownCount view = 2%nat.
Proof.
  intros s.
  destruct (render_three_booleans s eq_refl eq_refl) as (view & Hr & Hn & _).
  split; [reflexivity |]. split; [reflexivity |].
  exists view. split; [exact Hr | exact Hn].
Defined.

Lemma progress_bounds_witness :
  (2 <= 3)%nat
  /\ PrimFloat.leb (progress 2) 100%float = true
  /\ PrimFloat.ltb (progress 2) (progress 3) = true.
Proof.
  assert (Hn : (2 <= 3)%nat) by lia.
  destruct (progress_bounds 2 Hn) as (_ & Hhi & _ & Hmono).
  split; [exact Hn |]. split; [exact Hhi |]. apply Hmono. lia.
Defined.

Lemma toggle_changes_count_by_one_witness :
  let w := mount may1_noon (working (Some morning_done)) in
  let w1 := after (toggleCheck lunch may1_evening) w in
  getTodayString may1_evening = lastDate (app w)
  /\ is_CheckState (checks (app w)) = true
  /\ exists (n : nat) (b : bool),
       completedCount (checks (app w)) = Normal n
       /\ slot_bool (checks (app w)) lunch = Some b
       /\ completedCount (checks (app w1))
          = Normal (if b then n - 1 else n + 1)%nat.
Proof.
  intros w w1.
  destruct (toggle_changes_count_by_one (json := RefJSON.ref_json) lunch
              may1_evening w eq_refl eq_refl)
    as (n & b & Hn & Hb & Hn' & _).
  split; [reflexivity |]. split; [reflexivity |].
  exists n, b. split; [exact Hn |]. split; [exact Hb | exact Hn'].
Defined.

Lemma render_throws_without_checks_witness :
  let w := mkWorld (initialState may1_noon) (working (Some date_only)) [] [] in
  let w1 := after (loadData may1_noon) w in
  getItem_throws (localStorage w) = false
  /\ snapshot w = Some date_only
  /\ fst (loadData may1_noon w) = Normal tt
  /\ render (app w1) = Throw TypeError.
Proof.
  intros w w1.
  destruct (render_throws_without_checks (json := RefJSON.ref_json) may1_noon w
              date_only [("date", JStr "2024-05-01")]
              eq_refl eq_refl eq_refl eq_refl (or_introl eq_refl))
    as (Hn & _ & Hr & _).
  split; [reflexivity |]. split; [reflexivity |]. split; [exact Hn | exact Hr].
Defined.

Lemma clean_start_keeps_three_booleans_witness :
  let evs := [Click lunch may1_noon; Visible may1_evening;
              Click lunch may2_noon; Click dinner may2_noon] in
  let w := run evs (mount may1_noon (working None)) in
  items (working None) !! KEY = None
  /\ Forall (fun ev => reads_back (json := RefJSON.ref_json)
                         (getTodayString (event_time ev))) evs
  /\ is_CheckState (checks (app w)) = true
  /\ exists v, render (app w) = Normal v.
Proof.
  intros evs w.
  assert (Hall : Forall (fun ev => reads_back (json := RefJSON.ref_json)
                                     (getTodayString (event_time ev))) evs)
    by (repeat constructor; intros [] [] []; reflexivity).
  destruct (clean_start_keeps_three_booleans (json := RefJSON.ref_json)
              may1_noon (working None) evs eq_refl Hall)
    as (_ & Hc & Hr & _).
  split; [reflexivity |]. split; [exact Hall |]. split; [exact Hc | exact Hr].
Defined.

(** ** The listener *)

(** While the page is not visible the listener does nothing; when it is,
    it is the event [Visible]. *)
Lemma handleVisibilityChange_spec `{JSON} (visibilityState : string) (now : Z)
    (w : World) :
  handleVisibilityChange visibilityState now w
  = if String.eqb visibilityState "visible" then handle (Visible now) w
    else (Normal tt, w).
Proof. unfold handleVisibilityChange. now destruct (String.eqb _ _). Qed.
